(** * FilesAssistant-MCP: the protocol server and its file tools

    A shallow embedding of [tools.js] and [mcp-server.js].  JavaScript
    values that cross the wire are the inductive [jsval]; thrown errors are
    an explicit [Throw] completion; the file system touched by the tools is
    an explicit store threaded through every handler.  Node's [path]
    module (POSIX flavour), the [fs] calls and [glob.sync] used by the
    tools are modelled next to the code that calls them. *)

From Stdlib Require Import ZArith Ascii String List Bool Lia.
From stdpp Require Import base option list strings gmap fin_maps pretty.

Local Open Scope string_scope.
Local Open Scope Z_scope.
Set Warnings "-register-all".

(** ** Strings as JavaScript uses them *)

Module Str.

(** [s.startsWith(p)] *)
Definition startsWith (s p : string) : bool := String.prefix p s.

(** [s.includes(q)]: [q] occurs somewhere in [s]. *)
Fixpoint includes (s q : string) : bool :=
  String.prefix q s ||
  match s with
  | EmptyString => false
  | String _ s' => includes s' q
  end.

(** [s.split(c)] for a one-character separator: never empty. *)
Fixpoint split (c : ascii) (s : string) : list string :=
  match s with
  | EmptyString => [EmptyString]
  | String a s' =>
      if Ascii.eqb a c then EmptyString :: split c s'
      else match split c s' with
           | [] => [String a EmptyString]
           | h :: t => String a h :: t
           end
  end.

(** [parts.join(sep)] *)
Fixpoint join (sep : string) (parts : list string) : string :=
  match parts with
  | [] => EmptyString
  | [p] => p
  | p :: ps => p ++ sep ++ join sep ps
  end.

(** [s.slice(n)] for [0 <= n] *)
Fixpoint slice (n : nat) (s : string) : string :=
  match n, s with
  | O, _ => s
  | S n', String _ s' => slice n' s'
  | S _, EmptyString => EmptyString
  end.

(** [a || b] on strings: the empty string is falsy. *)
Definition or_else (a b : string) : string :=
  if String.eqb a EmptyString then b else a.



End Str.

(** ** Node's [path] module, POSIX flavour *)

Module Path.

Definition isAbsolute (p : string) : bool := Str.startsWith p "/".

(** [normalizeString]: walks the segments of a path, dropping empty and
    [.] segments and letting [..] remove the segment before it.  [acc]
    is the stack of kept segments, innermost first. *)
Fixpoint normalizeSegments (allowAboveRoot : bool)
         (acc : list string) (segs : list string) : list string :=
  match segs with
  | [] => rev acc
  | seg :: rest =>
      if String.eqb seg "" || String.eqb seg "." then
        normalizeSegments allowAboveRoot acc rest
      else if String.eqb seg ".." then
        match acc with
        | top :: below =>
            if String.eqb top ".." then
              normalizeSegments allowAboveRoot
                (if allowAboveRoot then ".." :: acc else acc) rest
            else normalizeSegments allowAboveRoot below rest
        | [] =>
            normalizeSegments allowAboveRoot
              (if allowAboveRoot then [".."] else []) rest
        end
      else normalizeSegments allowAboveRoot (seg :: acc) rest
  end.

Definition normalizeString (p : string) (allowAboveRoot : bool) : string :=
  Str.join "/" (normalizeSegments allowAboveRoot [] (Str.split "/" p)).

(** The right-to-left loop of [path.resolve]: arguments are prepended
    until one of them is absolute; empty arguments are skipped.
    [args_rev] lists the arguments last first. *)
Fixpoint resolve_loop (args_rev : list string) (resolvedPath : string)
  : string * bool :=
  match args_rev with
  | [] => (resolvedPath, false)
  | p :: rest =>
      if String.eqb p "" then resolve_loop rest resolvedPath
      else if isAbsolute p then (p ++ "/" ++ resolvedPath, true)
      else resolve_loop rest (p ++ "/" ++ resolvedPath)
  end.

(** [path.resolve(...args)] in a process whose working directory is
    [cwd]: [cwd] is the argument tried after all the others. *)
Definition resolve (cwd : string) (args : list string) : string :=
  let '(resolvedPath, resolvedAbsolute) :=
    resolve_loop (rev args ++ [cwd]) "" in
  let normalized := normalizeString resolvedPath (negb resolvedAbsolute) in
  if resolvedAbsolute then "/" ++ normalized
  else if String.eqb normalized "" then "." else normalized.

(** The components of a path: what lies between its separators. *)
Definition segments (p : string) : list string :=
  filter (fun seg => seg <> "") (Str.split "/" p).

(** [path.basename(p)]: the last component, trailing separators
    ignored; empty when there is none. *)
Definition basename (p : string) : string := List.last (segments p) "".

(** [path.extname(p)]: from the last dot of the last component to its
    end; empty when there is no dot, when the only dot leads the
    component, and for the component [..]. *)
Definition extname (p : string) : string :=
  let b := basename p in
  match rev (Str.split "." b) with
  | [] | [_] => ""
  | ext :: before =>
      if String.eqb (Str.join "." (rev before)) "" then ""
      else if String.eqb b ".." then ""
      else "." ++ ext
  end.

(** [path.normalize(p)], as [path.join] applies it to the joined text *)
Definition normalize (p : string) : string :=
  if String.eqb p "" then "."
  else
    let absolute := isAbsolute p in
    let trailing := Str.startsWith (String.rev p) "/" in
    let n := normalizeString p (negb absolute) in
    if String.eqb n "" then
      if absolute then "/" else if trailing then "./" else "."
    else
      (if absolute then "/" else "") ++ n ++ (if trailing then "/" else "").

(** [path.join(...args)] on string arguments *)
Definition join (args : list string) : string :=
  let joined := Str.join "/" (filter (fun a => a <> "") args) in
  if String.eqb joined "" then "." else normalize joined.

(** What is left of the components [segs] below the components [root],
    when [segs] starts with them *)
Fixpoint below (root segs : list string) : option (list string) :=
  match root, segs with
  | [], _ => Some segs
  | r :: root', s :: segs' => if String.eqb r s then below root' segs' else None
  | _ :: _, [] => None
  end.

(** [p] is the directory [root] or lies below it. *)
Definition within (root p : string) : bool :=
  bool_decide (is_Some (below (segments root) (segments p))).

Fixpoint drop_common (a b : list string) : list string * list string :=
  match a, b with
  | x :: a', y :: b' => if String.eqb x y then drop_common a' b' else (a, b)
  | _, _ => (a, b)
  end.

(** [path.relative(from, to)]: both are resolved, their common leading
    components dropped, and each component left of [from] is climbed
    with [..]. *)
Definition relative (cwd from to : string) : string :=
  let '(up, down) :=
    drop_common (segments (resolve cwd [from])) (segments (resolve cwd [to])) in
  Str.join "/" (map (fun _ => "..") up ++ down).

End Path.


(** ** JavaScript values and completions *)

(** The values that [JSON.parse] produces, and [undefined].  [JNum n] is
    the Number whose value is the integer [n]; [JObj] lists an object's own
    properties in property order, each key once. *)
Inductive jsval :=
| JUndefined
| JNull
| JBool (b : bool)
| JNum (n : Z)
| JStr (s : string)
| JArr (items : list jsval)
| JObj (props : list (string * jsval)).

(** A thrown [Error] object: its constructor's name and its [message]. *)
Record exn := Exn { exn_name : string; message : string }.

Definition Error (msg : string) : exn := Exn "Error" msg.
Definition TypeError (msg : string) : exn := Exn "TypeError" msg.
Definition SyntaxError (msg : string) : exn := Exn "SyntaxError" msg.

(** How an evaluation ends: with a value, with a thrown error, or outside
    the fragment of the platform that this development models (regular
    expressions with metacharacters, calls of members inherited from
    built-in prototypes, Numbers printed in exponent form, a root whose
    name holds glob pattern characters, the renaming of a directory). *)
Inductive result (A : Type) :=
| Ok (a : A)
| Fail (e : exn)
| Unsupported.
Arguments Ok {A} a.
Arguments Fail {A} e.
Arguments Unsupported {A}.

(** ** The file system *)

(** A regular file with its text and last-modified time (milliseconds
    since the epoch, UTC), or a directory.  Symbolic links are not
    modelled. *)
Inductive node :=
| File (content : string) (mtime : Z)
| Dir (mtime : Z).

(** What the tools act on: the entries of the file system, keyed by their
    absolute normalized path, and the time of the call. *)
Record world := World { entries : gmap string node; now : Z }.

(** [config.json], read once at start, and the process's directory. *)
Record config := Config {
  MCP_SERVER_AUTH_TOKEN : option string;
  WORKING_DIR : option string;
  ALLOW_DELETE : jsval
}.

Record env := Env { cwd : string; cfg : config }.

(** ** Computations over the file system that may throw *)

Definition M (A : Type) : Type := world -> result A * world.

Definition ret {A} (a : A) : M A := fun w => (Ok a, w).
Definition throw {A} (e : exn) : M A := fun w => (Fail e, w).
Definition unsupported {A} : M A := fun w => (Unsupported, w).

Definition bind {A B} (m : M A) (k : A -> M B) : M B :=
  fun w =>
    match m w with
    | (Ok a, w') => k a w'
    | (Fail e, w') => (Fail e, w')
    | (Unsupported, w') => (Unsupported, w')
    end.

(** [try { body } catch (error) { handler }] *)
Definition try_catch {A} (body : M A) (handler : exn -> M A) : M A :=
  fun w =>
    match body w with
    | (Fail e, w') => handler e w'
    | r => r
    end.

Definition lift {A} (r : result A) : M A := fun w => (r, w).

Declare Scope js_scope.
Delimit Scope js_scope with js.
Notation "'let*' x ':=' m 'in' k" := (bind m (fun x => k))
  (at level 10, x pattern, m at level 100, k at level 200) : js_scope.
Notation "m ';;;' k" := (bind m (fun _ => k))
  (at level 100, k at level 200, right associativity) : js_scope.
Local Open Scope js_scope.

Module JS.

Definition is_nullish (v : jsval) : bool :=
  match v with JUndefined | JNull => true | _ => false end.

(** [v === "s"] *)
Definition is_str (v : jsval) (s : string) : bool :=
  match v with JStr t => String.eqb t s | _ => false end.

(** [v === true] *)
Definition is_true (v : jsval) : bool :=
  match v with JBool true => true | _ => false end.

(** Truthiness, as [||], [!] and [if] read a value *)
Definition truthy (v : jsval) : bool :=
  match v with
  | JUndefined | JNull | JBool false => false
  | JNum n => negb (n =? 0)
  | JStr s => negb (String.eqb s "")
  | _ => true
  end.

Fixpoint own (props : list (string * jsval)) (k : string) : option jsval :=
  match props with
  | [] => None
  | (k', v) :: rest => if String.eqb k' k then Some v else own rest k
  end.

(** The own property [k] of a value, [None] when it has none.  Array
    and string indices and [length] are not among the names the server
    reads. *)
Definition own_property (v : jsval) (k : string) : option jsval :=
  match v with JObj props => own props k | _ => None end.

(** The names that the server reads and that a string primitive
    inherits from [String.prototype] as methods. *)
Definition string_method (k : string) : bool :=
  String.eqb k "search" || String.eqb k "replace".

Definition kind_of_nullish (v : jsval) : string :=
  match v with JNull => "null" | _ => "undefined" end.

(** Reading the property [k] of [v], for the property names the server
    reads ([method], [id], [params], [name], [arguments], [filename],
    [pattern], [query], [by], [search], [replace]): none of them is
    inherited by an object, array, number or boolean, so the read is
    the own property or [undefined]; [undefined] and [null] have no
    properties and the read throws [failure]. *)
Definition read (failure : exn) (v : jsval) (k : string) : result jsval :=
  match v with
  | JUndefined | JNull => Fail failure
  | JStr _ => if string_method k then Unsupported else Ok JUndefined
  | _ => Ok (default JUndefined (own_property v k))
  end.

(** [v.k].  The messages of the errors that the engine itself throws
    follow V8's wording. *)
Definition get (v : jsval) (k : string) : result jsval :=
  read (TypeError ("Cannot read properties of " ++ kind_of_nullish v
                   ++ " (reading '" ++ k ++ "')")) v k.

(** One name [k] of a destructuring pattern applied to [v], which the
    source writes as [src]; [first] is the first name of the pattern,
    the one the engine reports. *)
Definition destructure (src first : string) (v : jsval) (k : string) : result jsval :=
  read (TypeError ("Cannot destructure property '" ++ first ++ "' of '" ++ src
                   ++ "' as it is " ++ kind_of_nullish v ++ ".")) v k.

(** A name of the pattern of a function's parameter *)
Definition param (first : string) (v : jsval) (k : string) : result jsval :=
  destructure (kind_of_nullish v) first v k.

(** [ToString(v)].  An array joins its elements with commas, [null] and
    [undefined] elements reading as empty; a plain object is
    ["[object Object]"] unless an own [toString] property, never
    callable in a parsed value, hides the inherited method. *)
Fixpoint ToString (v : jsval) : result string :=
  match v with
  | JUndefined => Ok "undefined"
  | JNull => Ok "null"
  | JBool b => Ok (if b then "true" else "false")
  | JNum n => if Z.abs n <? 10 ^ 21 then Ok (pretty n) else Unsupported
  | JStr s => Ok s
  | JArr items =>
      (fix join_items (l : list jsval) : result string :=
         match l with
         | [] => Ok ""
         | x :: rest =>
             match (if is_nullish x then Ok "" else ToString x) with
             | Ok s =>
                 match rest with
                 | [] => Ok s
                 | _ => match join_items rest with
                        | Ok t => Ok (s ++ "," ++ t)
                        | r => r
                        end
                 end
             | r => r
             end
         end) items
  | JObj props =>
      match own props "toString" with
      | Some _ => Fail (TypeError "Cannot convert object to primitive value")
      | None => Ok "[object Object]"
      end
  end.

Definition dquote : ascii := "034".

Definition hex_digit (n : nat) : ascii :=
  if Nat.ltb n 10 then ascii_of_nat (48 + n) else ascii_of_nat (87 + n).

(** One character of a string inside [JSON.stringify]'s quotes *)
Definition escape_char (a : ascii) : string :=
  let n := nat_of_ascii a in
  if Nat.eqb n 34 then String "\" (String dquote "")
  else if Nat.eqb n 92 then "\\"
  else if Nat.eqb n 8 then "\b"
  else if Nat.eqb n 9 then "\t"
  else if Nat.eqb n 10 then "\n"
  else if Nat.eqb n 12 then "\f"
  else if Nat.eqb n 13 then "\r"
  else if Nat.ltb n 32 then
    "\u00" ++ String (hex_digit (Nat.div n 16)) (String (hex_digit (Nat.modulo n 16)) "")
  else String a "".

Fixpoint escape (s : string) : string :=
  match s with
  | EmptyString => ""
  | String a s' => escape_char a ++ escape s'
  end.

Definition quote (s : string) : string :=
  String dquote (escape s ++ String dquote "").

(** [JSON.stringify(v)]: [None] is the [undefined] it returns for
    [undefined]; an [undefined] array element prints as [null] and an
    [undefined] property is left out. *)
Fixpoint JSON_stringify (v : jsval) : result (option string) :=
  match v with
  | JUndefined => Ok None
  | JNull => Ok (Some "null")
  | JBool b => Ok (Some (if b then "true" else "false"))
  | JNum n => if Z.abs n <? 10 ^ 21 then Ok (Some (pretty n)) else Unsupported
  | JStr s => Ok (Some (quote s))
  | JArr items =>
      match
        (fix elements (l : list jsval) : result (list string) :=
           match l with
           | [] => Ok []
           | x :: rest =>
               match JSON_stringify x, elements rest with
               | Ok t, Ok ts => Ok (default "null" t :: ts)
               | Fail e, _ | Ok _, Fail e => Fail e
               | _, _ => Unsupported
               end
           end) items
      with
      | Ok ts => Ok (Some ("[" ++ Str.join "," ts ++ "]"))
      | Fail e => Fail e
      | Unsupported => Unsupported
      end
  | JObj props =>
      match
        (fix members (l : list (string * jsval)) : result (list string) :=
           match l with
           | [] => Ok []
           | (k, x) :: rest =>
               match JSON_stringify x, members rest with
               | Ok (Some t), Ok ts => Ok ((quote k ++ ":" ++ t) :: ts)
               | Ok None, Ok ts => Ok ts
               | Fail e, _ | Ok _, Fail e => Fail e
               | _, _ => Unsupported
               end
           end) props
      with
      | Ok ts => Ok (Some ("{" ++ Str.join "," ts ++ "}"))
      | Fail e => Fail e
      | Unsupported => Unsupported
      end
  end.

(** The value of a property whose initializer is [JSON.stringify(v)] *)
Definition stringified (v : jsval) : result jsval :=
  match JSON_stringify v with
  | Ok (Some t) => Ok (JStr t)
  | Ok None => Ok JUndefined
  | Fail e => Fail e
  | Unsupported => Unsupported
  end.

(** The names every plain object inherits from [Object.prototype]. *)
Definition Object_prototype_names : list string :=
  ["constructor"; "__defineGetter__"; "__defineSetter__"; "hasOwnProperty";
   "__lookupGetter__"; "__lookupSetter__"; "isPrototypeOf";
   "propertyIsEnumerable"; "toString"; "valueOf"; "__proto__";
   "toLocaleString"].

Definition inherited (k : string) : bool :=
  bool_decide (k ∈ Object_prototype_names).

Fixpoint parse_digits (acc : N) (s : string) : option N :=
  match s with
  | EmptyString => Some acc
  | String a s' =>
      let n := nat_of_ascii a in
      if (Nat.leb 48 n && Nat.leb n 57)%bool
      then parse_digits (acc * 10 + N.of_nat (n - 48))%N s'
      else None
  end.

(** An array index: the canonical decimal text of an integer below
    [2^32 - 1].  An object enumerates such keys first, in ascending
    order, before its other keys in insertion order. *)
Definition array_index (k : string) : option N :=
  match k with
  | EmptyString => None
  | _ =>
      match parse_digits 0%N k with
      | Some n =>
          if (String.eqb (pretty n) k && (n <? 4294967295)%N)%bool
          then Some n else None
      | None => None
      end
  end.

(** Where a new own property lands in property order *)
Fixpoint add_property (props : list (string * jsval)) (k : string) (v : jsval)
  : list (string * jsval) :=
  match props with
  | [] => [(k, v)]
  | (k', v') :: rest =>
      match array_index k, array_index k' with
      | Some i, Some j =>
          if (i <? j)%N then (k, v) :: props else (k', v') :: add_property rest k v
      | Some _, None => (k, v) :: props
      | None, _ => (k', v') :: add_property rest k v
      end
  end.

Fixpoint replace_property (props : list (string * jsval)) (k : string) (v : jsval)
  : list (string * jsval) :=
  match props with
  | [] => []
  | (k', v') :: rest =>
      if String.eqb k' k then (k, v) :: rest
      else (k', v') :: replace_property rest k v
  end.

(** [obj[k] = v] on own data properties *)
Definition set_property (props : list (string * jsval)) (k : string) (v : jsval)
  : list (string * jsval) :=
  match own props k with
  | Some _ => replace_property props k v
  | None => add_property props k v
  end.

End JS.

(** ** [Date.prototype.toISOString] *)

Module Date.

Definition digit (d : Z) : ascii := ascii_of_nat (48 + Z.to_nat d).

(** The [w] lowest decimal digits of [n], highest first *)
Fixpoint digits (w : nat) (n : Z) : string :=
  match w with
  | O => ""
  | S w' => digits w' (n / 10) ++ String (digit (n mod 10)) ""
  end.

Definition msPerDay : Z := 86400000.

(** Year, month and day of the [days]-th day after 1970-01-01 in the
    proleptic Gregorian calendar *)
Definition civil (days : Z) : Z * Z * Z :=
  let z := days + 719468 in
  let era := z / 146097 in
  let doe := z - era * 146097 in
  let yoe := (doe - doe / 1460 + doe / 36524 - doe / 146096) / 365 in
  let doy := doe - (365 * yoe + yoe / 4 - yoe / 100) in
  let mp := (5 * doy + 2) / 153 in
  let d := doy - (153 * mp + 2) / 5 + 1 in
  let m := if mp <? 10 then mp + 3 else mp - 9 in
  let y := yoe + era * 400 + (if m <=? 2 then 1 else 0) in
  (y, m, d).

Definition year_text (y : Z) : string :=
  if (0 <=? y) && (y <=? 9999) then digits 4 y
  else (if y <? 0 then "-" else "+") ++ digits 6 (Z.abs y).

(** The calendar day of time value [t], UTC: [YYYY-MM-DD] *)
Definition iso_date (t : Z) : string :=
  let '(y, m, d) := civil (t / msPerDay) in
  year_text y ++ "-" ++ digits 2 m ++ "-" ++ digits 2 d.

(** The time of day of time value [t], UTC: [HH:mm:ss.sssZ] *)
Definition iso_time (t : Z) : string :=
  let ms := t mod msPerDay in
  digits 2 (ms / 3600000) ++ ":" ++ digits 2 (ms / 60000 mod 60) ++ ":"
    ++ digits 2 (ms / 1000 mod 60) ++ "." ++ digits 3 (ms mod 1000) ++ "Z".

(** [new Date(t).toISOString()]; a time value out of range is an
    invalid date. *)
Definition toISOString (t : Z) : result string :=
  if Z.abs t <=? 8640000000000000
  then Ok (iso_date t ++ "T" ++ iso_time t)
  else Fail (Exn "RangeError" "Invalid time value").

End Date.

(** ** Node's [fs] calls and [glob.sync], on the modelled file system *)

Module Fs.
Section WithEnv.

Variable e : env.

(** The entry a path names: paths are taken relative to the process's
    directory. *)
Definition abs (p : string) : string := Path.resolve (cwd e) [p].

Definition of_segments (segs : list string) : string := "/" ++ Str.join "/" segs.

(** The directories above an absolute path, outermost first, the root
    excepted. *)
Definition ancestors (p : string) : list string :=
  let segs := Path.segments p in
  map (fun n => of_segments (take n segs)) (seq 1 (length segs - 1)).

Definition parent (p : string) : string :=
  of_segments (removelast (Path.segments p)).

Definition is_file (w : world) (p : string) : bool :=
  match entries w !! p with Some (File _ _) => true | _ => false end.

Definition is_dir (w : world) (p : string) : bool :=
  match entries w !! p with Some (Dir _) => true | _ => false end.

Definition system_error (code what call p : string) : exn :=
  Error (code ++ ": " ++ what ++ ", " ++ call ++ " '" ++ p ++ "'").

Definition ENOENT := system_error "ENOENT" "no such file or directory".
Definition ENOTDIR := system_error "ENOTDIR" "not a directory".
Definition EISDIR := system_error "EISDIR" "illegal operation on a directory".
Definition EEXIST := system_error "EEXIST" "file already exists".

(** The entry at [p], as a system call finds it: a regular file on the
    way to [p] stops the walk. *)
Definition find (call p : string) : M (option node) :=
  fun w =>
    if existsb (is_file w) (ancestors (abs p))
    then (Fail (ENOTDIR call p), w)
    else (Ok (entries w !! abs p), w).

(** [fs.existsSync(p)]: never throws. *)
Definition existsSync (p : string) : M bool :=
  fun w =>
    (Ok (negb (existsb (is_file w) (ancestors (abs p)))
         && bool_decide (is_Some (entries w !! abs p))), w).

(** [fs.readFileSync(p, "utf8")] *)
Definition readFileSync (p : string) : M string :=
  let* n := find "open" p in
  match n with
  | Some (File content _) => ret content
  | Some (Dir _) => throw (EISDIR "read" p)
  | None => throw (ENOENT "open" p)
  end.

(** [fs.statSync(p).mtime], as a time value *)
Definition statSync_mtime (p : string) : M Z :=
  let* n := find "stat" p in
  match n with
  | Some (File _ t) | Some (Dir t) => ret t
  | None => throw (ENOENT "stat" p)
  end.

Definition put (p : string) (n : node) : M unit :=
  fun w => (Ok tt, World (<[p := n]> (entries w)) (now w)).

Definition remove (p : string) : M unit :=
  fun w => (Ok tt, World (delete p (entries w)) (now w)).

Definition clock : M Z := fun w => (Ok (now w), w).

Definition dir_exists (p : string) : M bool :=
  fun w => (Ok (String.eqb p "/" || is_dir w p), w).

(** [fs.writeFileSync(p, data, "utf8")] *)
Definition writeFileSync (p data : string) : M unit :=
  let* n := find "open" p in
  match n with
  | Some (Dir _) => throw (EISDIR "open" p)
  | _ =>
      let* ok := dir_exists (parent (abs p)) in
      if ok then let* t := clock in put (abs p) (File data t)
      else throw (ENOENT "open" p)
  end.

(** [fs.unlinkSync(p)] *)
Definition unlinkSync (p : string) : M unit :=
  let* n := find "unlink" p in
  match n with
  | Some (File _ _) => remove (abs p)
  | Some (Dir _) => throw (EISDIR "unlink" p)
  | None => throw (ENOENT "unlink" p)
  end.

(** [fs.mkdirSync(p, { recursive: true })]: every missing directory on
    the way to [p], and [p] itself, is created. *)
Fixpoint mkdir_each (p : string) (dirs : list string) : M unit :=
  match dirs with
  | [] => ret tt
  | d :: rest =>
      let* n := (fun w => (Ok (entries w !! d), w)) in
      match n with
      | Some (Dir _) => mkdir_each p rest
      | Some (File _ _) =>
          throw (match rest with [] => EEXIST "mkdir" p | _ => ENOTDIR "mkdir" p end)
      | None => let* t := clock in put d (Dir t);;; mkdir_each p rest
      end
  end.

Definition mkdirSync_recursive (p : string) : M unit :=
  mkdir_each p (ancestors (abs p) ++ [abs p]).

(** [fs.renameSync(from, to)] of a regular file: the entry moves, with
    its text and time, replacing a regular file already at [to].
    Renaming a directory is not modelled: the tools rename only the
    regular files that [glob.sync] listed. *)
Definition renameSync (from to : string) : M unit :=
  let* n := find "rename" from in
  match n with
  | None => throw (ENOENT "rename" from)
  | Some (Dir _) => unsupported
  | Some (File content t) =>
      let* target := find "rename" to in
      let* ok := dir_exists (parent (abs to)) in
      if negb ok then throw (ENOENT "rename" from)
      else if String.eqb (abs from) (abs to) then ret tt
      else match target with
           | Some (Dir _) => throw (EISDIR "rename" from)
           | _ => remove (abs from);;; put (abs to) (File content t)
           end
  end.

Definition glob_magic (a : ascii) : bool :=
  bool_decide (a ∈ list_ascii_of_string "*?[]{}()!+@\").

Definition hidden (seg : string) : bool := Str.startsWith seg ".".

(** [glob.sync] on the pattern that the tools build from [dir], with
    [nodir]: the regular files below [dir], at any depth, leaving out
    every path with a component below [dir] that starts with a dot (by
    glob's default no wildcard matches such a component).  The order is
    that of the store's enumeration.  A [dir] with characters that glob
    reads as pattern syntax is not modelled. *)
Definition glob_files (dir : string) : M (list string) :=
  fun w =>
    if existsb glob_magic (list_ascii_of_string dir) then (Unsupported, w)
    else
      (Ok (omap (fun '(p, n) =>
                   match n, Path.below (Path.segments (abs dir)) (Path.segments p) with
                   | File _ _, Some (seg :: rel) =>
                       if existsb hidden (seg :: rel) then None
                       else Some (Path.join [dir; Str.join "/" (seg :: rel)])
                   | _, _ => None
                   end)
                (map_to_list (entries w))), w).

End WithEnv.
End Fs.

(** ** Regular expressions: the literal fragment *)

Module RegExp.

Definition metachar (a : ascii) : bool :=
  bool_decide (a ∈ list_ascii_of_string "\^$.*+?()[]{}|").

(** [new RegExp(pattern, "g")].  A pattern without metacharacters
    matches its own text; it is kept as that text.  The empty pattern,
    [undefined] (both stand for an empty group) and patterns with
    metacharacters are outside the fragment. *)
Definition create (pattern : jsval) : result string :=
  match pattern with
  | JUndefined => Unsupported
  | _ =>
      match JS.ToString pattern with
      | Ok src =>
          if String.eqb src "" then Unsupported
          else if existsb metachar (list_ascii_of_string src) then Unsupported
          else Ok src
      | Fail e => Fail e
      | Unsupported => Unsupported
      end
  end.

(** [GetSubstitution] for a match without capture groups: [$$] is a
    dollar, [$&] the matched text, [$`] the text before the match and
    [$'] the text after it; any other dollar stands for itself. *)
Fixpoint substitution (template matched before after : string) : string :=
  match template with
  | String "$" (String c rest as tail) =>
      if Ascii.eqb c "$" then "$" ++ substitution rest matched before after
      else if Ascii.eqb c "&" then matched ++ substitution rest matched before after
      else if Ascii.eqb c "`" then before ++ substitution rest matched before after
      else if Ascii.eqb c "'" then after ++ substitution rest matched before after
      else String "$" (substitution tail matched before after)
  | String a rest => String a (substitution rest matched before after)
  | EmptyString => ""
  end.

(** The scan of a global replace: [s] is what remains of [whole] from
    position [pos]; [skip] characters of it belong to the match just
    replaced.  Matches are found left to right and do not overlap. *)
Fixpoint replace_from (re template whole : string) (pos skip : nat) (s : string) : string :=
  match s with
  | EmptyString => ""
  | String a s' =>
      match skip with
      | S k => replace_from re template whole (S pos) k s'
      | O =>
          if String.prefix re s then
            substitution template re
              (String.substring 0 pos whole)
              (Str.slice (pos + String.length re) whole)
            ++ replace_from re template whole (S pos) (String.length re - 1) s'
          else String a (replace_from re template whole (S pos) 0 s')
      end
  end.

(** [content.replace(re, replacement)] for a global [re] and a
    replacement that is not a function *)
Definition replace (content re : string) (replacement : jsval) : result string :=
  match JS.ToString replacement with
  | Ok template => Ok (replace_from re template content 0 0 content)
  | Fail e => Fail e
  | Unsupported => Unsupported
  end.

Fixpoint matches_from (re : string) (skip : nat) (s : string) : list string :=
  match s with
  | EmptyString => []
  | String a s' =>
      match skip with
      | S k => matches_from re k s'
      | O =>
          if String.prefix re s then re :: matches_from re (String.length re - 1) s'
          else matches_from re 0 s'
      end
  end.

(** [content.match(re) || []] for a global [re] *)
Definition matches (content re : string) : list string := matches_from re 0 content.

End RegExp.

(** ** tools.js *)

Module Tools.
Section WithEnv.

Variable e : env.

(** [config.WORKING_DIR || process.cwd()] *)
Definition workingDir : string :=
  Str.or_else (default "" (WORKING_DIR (cfg e))) (cwd e).

(** [config.ALLOW_DELETE === true] *)
Definition allowDelete : bool := JS.is_true (ALLOW_DELETE (cfg e)).

Definition received (v : jsval) : string :=
  match v with
  | JUndefined => "undefined"
  | JNull => "null"
  | JBool b => "type boolean (" ++ (if b then "true" else "false") ++ ")"
  | JNum n => "type number (" ++ pretty n ++ ")"
  | JStr s => "type string ('" ++ s ++ "')"
  | JArr _ => "an instance of Array"
  | JObj _ => "an instance of Object"
  end.

(** The error of Node's [path] functions on an argument that is not a
    string *)
Definition invalid_arg (arg : string) (v : jsval) : exn :=
  TypeError ("The " ++ String JS.dquote (arg ++ String JS.dquote
             (" argument must be of type string. Received " ++ received v))).

(** [ensureSafePath(filename)] *)
Definition ensureSafePath (filename : jsval) : M string :=
  match filename with
  | JStr f =>
      let fullPath := Path.resolve (cwd e) [workingDir; f] in
      if negb (Str.startsWith fullPath (Path.resolve (cwd e) [workingDir]))
      then throw (Error "Attempt to access path outside WORKING_DIR")
      else ret fullPath
  | _ => throw (invalid_arg "paths[1]" filename)
  end.

(** A parameter with a default: [{ k = d }] *)
Definition param_default (first : string) (args : jsval) (k : string) (d : jsval)
  : M jsval :=
  let* v := lift (JS.param first args k) in
  ret (match v with JUndefined => d | _ => v end).

(** [analyze_logs({ pattern, filename })] *)
Definition analyze_logs (args : jsval) : M jsval :=
  let* pattern := lift (JS.param "pattern" args "pattern") in
  let* filename := lift (JS.param "pattern" args "filename") in
  let* filePath := ensureSafePath filename in
  let* found := Fs.existsSync e filePath in
  if negb found then throw (Error "Log file not found")
  else
    let* content := Fs.readFileSync e filePath in
    let* regex := lift (RegExp.create pattern) in
    let matches := RegExp.matches content regex in
    ret (JObj [("matches", JArr (map JStr matches));
               ("count", JNum (Z.of_nat (length matches)))]).

(** [files.filter(keep)] with a callback that may throw *)
Fixpoint filterM (keep : string -> M bool) (files : list string) : M (list string) :=
  match files with
  | [] => ret []
  | f :: rest =>
      let* k := keep f in
      let* kept := filterM keep rest in
      ret (if k then f :: kept else kept)
  end.

(** [search_files({ query, by = "name" })] *)
Definition search_files (args : jsval) : M jsval :=
  let* query := lift (JS.param "query" args "query") in
  let* by_ := param_default "query" args "by" (JStr "name") in
  let* files := Fs.glob_files e workingDir in
  let* results :=
    if JS.is_str by_ "name" then
      filterM (fun f =>
                 let* q := lift (JS.ToString query) in
                 ret (Str.includes (Path.basename f) q)) files
    else if JS.is_str by_ "content" then
      filterM (fun f =>
                 try_catch
                   (let* content := Fs.readFileSync e f in
                    let* q := lift (JS.ToString query) in
                    ret (Str.includes content q))
                   (fun _ => ret false)) files
    else if JS.is_str by_ "date" then
      filterM (fun f =>
                 let* mtime := Fs.statSync_mtime e f in
                 let* iso := lift (Date.toISOString mtime) in
                 let* q := lift (JS.ToString query) in
                 ret (Str.startsWith iso q)) files
    else ret [] in
  ret (JArr (map (fun f => JStr (Path.relative (cwd e) workingDir f)) results)).

(** The [groupKey] of one file; [None] is the [undefined] left by a
    [by] that is neither ["extension"] nor ["date"]. *)
Definition groupKey (by_ : jsval) (file : string) : M (option string) :=
  if JS.is_str by_ "extension" then
    ret (Some (Str.or_else (Str.slice 1 (Path.extname file)) "no-extension"))
  else if JS.is_str by_ "date" then
    let* mtime := Fs.statSync_mtime e file in
    let* iso := lift (Date.toISOString mtime) in
    ret (Some (hd "" (Str.split "T" iso)))
  else ret None.

(** [groups[key] = groups[key] || []; groups[key].push(item)].  A key
    that [groups] does not own but inherits from [Object.prototype]
    reads as the inherited member, which has no [push]. *)
Definition push_group (groups : list (string * jsval)) (key : string) (item : jsval)
  : M (list (string * jsval)) :=
  match JS.own groups key with
  | Some (JArr items) => ret (JS.set_property groups key (JArr (items ++ [item])))
  | Some _ => throw (TypeError "groups[groupKey].push is not a function")
  | None =>
      if JS.inherited key
      then throw (TypeError "groups[groupKey].push is not a function")
      else ret (JS.set_property groups key (JArr [item]))
  end.

(** The body of the loop of [organize_files], for one [file].  The
    loop's [relPath] is computed and never read; it is left out. *)
Definition organize_one (by_ : jsval) (groups : list (string * jsval)) (file : string)
  : M (list (string * jsval)) :=
  let* key := groupKey by_ file in
  match key with
  | None => throw (invalid_arg "path" JUndefined)
  | Some key =>
      let targetDir := Path.join [workingDir; key] in
      let* found := Fs.existsSync e targetDir in
      (if negb found then Fs.mkdirSync_recursive e targetDir else ret tt);;;
      let newPath := Path.join [targetDir; Path.basename file] in
      Fs.renameSync e file newPath;;;
      push_group groups key (JStr (Path.relative (cwd e) workingDir newPath))
  end.

Fixpoint organize_each (by_ : jsval) (groups : list (string * jsval)) (files : list string)
  : M (list (string * jsval)) :=
  match files with
  | [] => ret groups
  | file :: rest =>
      let* groups' := organize_one by_ groups file in
      organize_each by_ groups' rest
  end.

(** [organize_files({ by = "extension" })] *)
Definition organize_files (args : jsval) : M jsval :=
  let* by_ := param_default "by" args "by" (JStr "extension") in
  let* files := Fs.glob_files e workingDir in
  let* groups := organize_each by_ [] files in
  ret (JObj groups).

(** [replace_text({ search, replace, filename })] *)
Definition replace_text (args : jsval) : M jsval :=
  let* search := lift (JS.param "search" args "search") in
  let* replace := lift (JS.param "search" args "replace") in
  let* filename := lift (JS.param "search" args "filename") in
  let* filePath := ensureSafePath filename in
  let* found := Fs.existsSync e filePath in
  if negb found then throw (Error "File not found")
  else
    let* content := Fs.readFileSync e filePath in
    let* regex := lift (RegExp.create search) in
    let* newContent := lift (RegExp.replace content regex replace) in
    Fs.writeFileSync e filePath newContent;;;
    ret (JStr ("Text replaced in " ++ filePath)).

(** [delete_file({ filename })] *)
Definition delete_file (args : jsval) : M jsval :=
  let* filename := lift (JS.param "filename" args "filename") in
  if negb allowDelete
  then throw (Error "File deletion is disabled in configuration")
  else
    let* filePath := ensureSafePath filename in
    let* found := Fs.existsSync e filePath in
    if negb found then throw (Error "File not found")
    else
      Fs.unlinkSync e filePath;;;
      ret (JStr ("File deleted: " ++ filePath)).

(** [module.exports]: the registry, in the order of its keys *)
Definition exports : list (string * (jsval -> M jsval)) :=
  [("analyze_logs", analyze_logs);
   ("search_files", search_files);
   ("organize_files", organize_files);
   ("replace_text", replace_text);
   ("delete_file", delete_file)].

(** [Object.keys(tools)] *)
Definition keys : list string := map fst exports.

Fixpoint own_tool (l : list (string * (jsval -> M jsval))) (k : string)
  : option (jsval -> M jsval) :=
  match l with
  | [] => None
  | (k', f) :: rest => if String.eqb k' k then Some f else own_tool rest k
  end.

(** [tools[name](args)].  The key is [ToPropertyKey(name)]; a key that
    the registry lacks reads [undefined], and calling it throws.  Calls
    of the members that the registry inherits from [Object.prototype]
    are not modelled. *)
Definition call (name args : jsval) : M jsval :=
  let* key := lift (JS.ToString name) in
  match own_tool exports key with
  | Some tool => tool args
  | None =>
      if JS.inherited key then unsupported
      else throw (TypeError "tools[name] is not a function")
  end.

End WithEnv.
End Tools.

(** ** mcp-server.js *)

Module Server.
Section WithEnv.

Variable e : env.

(** [config.MCP_SERVER_AUTH_TOKEN || "Super8Duper8Secret8T0ken"] *)
Definition authToken : string :=
  Str.or_else (default "" (MCP_SERVER_AUTH_TOKEN (cfg e))) "Super8Duper8Secret8T0ken".

Definition error_object (code : Z) (msg : string) : jsval :=
  JObj [("code", JNum code); ("message", JStr msg)].

(** [handleSingleCall(json)].  [json.id] is read once, ahead of the
    envelopes that carry it: after [json.method] was read the read
    cannot throw. *)
Definition handleSingleCall (json : jsval) : M jsval :=
  let* method := lift (JS.get json "method") in
  let* id := lift (JS.get json "id") in
  if JS.is_str method "tool_call" then
    let* params := lift (JS.get json "params") in
    let* name := lift (JS.destructure "json.params" "name" params "name") in
    let* args := lift (JS.destructure "json.params" "name" params "arguments") in
    try_catch
      (let* result := Tools.call e name args in
       let* text := lift (JS.stringified result) in
       ret (JObj [("jsonrpc", JStr "2.0");
                  ("id", id);
                  ("result",
                   JObj [("content",
                          JArr [JObj [("type", JStr "text"); ("text", text)]])])]))
      (fun error =>
         ret (JObj [("jsonrpc", JStr "2.0");
                    ("id", id);
                    ("error", error_object (-32000) (message error))]))
  else if JS.is_str method "initialize" then
    ret (JObj [("jsonrpc", JStr "2.0");
               ("id", id);
               ("result",
                JObj [("capabilities",
                       JObj [("tools",
                              JArr (map JStr
                                      (List.filter
                                         (fun name =>
                                            negb (String.eqb name "delete_file")
                                            || JS.truthy (ALLOW_DELETE (cfg e)))
                                         (Tools.keys e))))])])])
  else
    ret (JObj [("jsonrpc", JStr "2.0");
               ("id", id);
               ("error", error_object (-32600) "Invalid method")]).

(** What the front-end knows of a request before its body arrives;
    [authorization] is [None] when the header is absent. *)
Record request := Request {
  http_method : string;
  url : string;
  authorization : option string
}.

(** The body as [JSON.parse] reads it: a text that is not JSON, with
    the message of the [SyntaxError], or the text of a value. *)
Inductive body :=
| NotJSON (msg : string)
| JSONText (json : jsval).

(** [res.writeHead(status, ...); res.end(JSON.stringify(payload))] *)
Record reply := Reply { status : Z; payload : jsval }.

(** The loop over a batch *)
Fixpoint handleEach (items : list jsval) : M (list jsval) :=
  match items with
  | [] => ret []
  | item :: rest =>
      let* resp := handleSingleCall item in
      let* responses := handleEach rest in
      ret (resp :: responses)
  end.

(** The [responses] collected for a parsed body: one per item of an
    array, or the one of a body that is not an array *)
Definition collect (json : jsval) : M (list jsval) :=
  match json with
  | JArr items => handleEach items
  | _ => let* resp := handleSingleCall json in ret [resp]
  end.

(** The listener of the request's [end] event *)
Definition on_end (b : body) : M reply :=
  try_catch
    (match b with
     | NotJSON msg => throw (SyntaxError msg)
     | JSONText json =>
         let* responses := collect json in
         ret (Reply 200 (match responses with
                         | [resp] => resp
                         | _ => JArr responses
                         end))
     end)
    (fun error =>
       ret (Reply 500 (JObj [("jsonrpc", JStr "2.0");
                             ("error", error_object (-32000) (message error))]))).

(** The answer to a request without the right bearer token *)
Definition unauthorized : reply :=
  Reply 401 (JObj [("jsonrpc", JStr "2.0");
                   ("error", error_object (-32001) "Unauthorized")]).

(** What the request listener does with a request: it answers at once,
    or it waits for the body and leaves the answer to [on_end]. *)
Inductive action :=
| Respond (r : reply)
| AwaitBody (listener : body -> M reply).

(** The listener passed to [http.createServer].  An absent header and
    an empty one are the falsy values of [!authHeader]. *)
Definition server (req : request) : action :=
  if String.eqb (http_method req) "POST" && String.eqb (url req) "/mcp" then
    match authorization req with
    | Some authHeader =>
        if String.eqb authHeader "" || negb (String.eqb authHeader ("Bearer " ++ authToken))
        then Respond unauthorized
        else AwaitBody on_end
    | None => Respond unauthorized
    end
  else
    Respond (Reply 404 (JObj [("jsonrpc", JStr "2.0");
                              ("error", error_object (-32600) "Not Found")])).

End WithEnv.
End Server.

(** ** Notions used to state the properties *)

(** The envelopes of [handleSingleCall] *)
Definition error_envelope (id : jsval) (code : Z) (msg : string) : jsval :=
  JObj [("jsonrpc", JStr "2.0"); ("id", id);
        ("error", JObj [("code", JNum code); ("message", JStr msg)])].

Definition capabilities_envelope (id : jsval) (names : list string) : jsval :=
  JObj [("jsonrpc", JStr "2.0"); ("id", id);
        ("result", JObj [("capabilities", JObj [("tools", JArr (map JStr names))])])].

Definition result_envelope (id text : jsval) : jsval :=
  JObj [("jsonrpc", JStr "2.0"); ("id", id);
        ("result", JObj [("content", JArr [JObj [("type", JStr "text"); ("text", text)]])])].


(** The member [k] of an envelope as it goes on the wire: a property
    whose value is [undefined] is left out by [JSON.stringify]. *)
Definition member (envelope : jsval) (k : string) : option jsval :=
  match JS.own_property envelope k with
  | Some JUndefined => None
  | m => m
  end.

(** No character of [s] is [c]. *)
Fixpoint free_of (c : ascii) (s : string) : Prop :=
  match s with
  | EmptyString => True
  | String a s' => a <> c /\ free_of c s'
  end.

(** [stored e w p content t]: the path [p] leads to a regular file with
    that text and time, in a directory. *)
Definition stored (e : env) (w : world) (p content : string) (t : Z) : Prop :=
  Fs.find e "open" p w = (Ok (Some (File content t)), w)
  /\ Fs.dir_exists (Fs.parent (Fs.abs e p)) w = (Ok true, w).

(** [visible_file e dir w f]: [f] names a regular file of [w] that lies
    below [dir] and has no component below [dir] that starts with a
    dot. *)
Definition visible_file (e : env) (dir : string) (w : world) (f : string) : Prop :=
  exists p content t seg rel,
    entries w !! p = Some (File content t)
    /\ Path.below (Path.segments (Fs.abs e dir)) (Path.segments p) = Some (seg :: rel)
    /\ existsb Fs.hidden (seg :: rel) = false
    /\ f = Path.join [dir; Str.join "/" (seg :: rel)].

(** Where [organize_files] puts [file] under the group [key] *)
Definition destination (e : env) (key file : string) : string :=
  Path.join [Path.join [Tools.workingDir e; key]; Path.basename file].

(** [filed e by_ file w groups' w']: between [w] and [w'] the regular
    file [file] went, text and time unchanged, to its place under the
    directory named by its group key, and [groups'] lists it last under
    that key.  The key is the extension as written, without its dot, or
    [no-extension] for a name without one; or the calendar day (UTC) of
    the file's time. *)
Definition filed (e : env) (by_ : jsval) (file : string) (w : world)
           (groups' : list (string * jsval)) (w' : world) : Prop :=
  exists key content t,
    entries w !! Fs.abs e file = Some (File content t)
    /\ (by_ = JStr "extension"
          /\ key = Str.or_else (Str.slice 1 (Path.extname file)) "no-extension"
        \/ by_ = JStr "date" /\ key = Date.iso_date t)
    /\ entries w' !! Fs.abs e (destination e key file) = Some (File content t)
    /\ (Fs.abs e file <> Fs.abs e (destination e key file) ->
        entries w' !! Fs.abs e file = None)
    /\ exists items,
        JS.own groups' key
        = Some (JArr (items ++ [JStr (Path.relative (cwd e) (Tools.workingDir e)
                                        (destination e key file))])).


(** The responses to the items of a batch, each computed in the file
    system that the items before it left *)
Inductive answered (e : env) : world -> list jsval -> list jsval -> world -> Prop :=
| answered_nil w : answered e w [] [] w
| answered_cons w item resp w1 items resps w2 :
    Server.handleSingleCall e item w = (Ok resp, w1) ->
    answered e w1 items resps w2 ->
    answered e w (item :: items) (resp :: resps) w2.

Ltac run := unfold bind, lift, ret, throw, unsupported, try_catch in *.

(** ** A sample deployment

    The configuration, file systems and requests on which the examples
    below run the code. *)

Module Sample.

(** Root [/data], deletion disabled, default token *)
Definition conf : config := Config None (Some "/data") (JBool false).
Definition deployment : env := Env "/srv" conf.

(** The same with [ALLOW_DELETE] set to [flag] *)
Definition with_delete (flag : bool) : env :=
  Env "/srv" (Config None (Some "/data") (JBool flag)).

Definition disk : world :=
  World (list_to_map
           [("/", Dir 0); ("/data", Dir 0);
            ("/data/a.txt", File "http://x" 5);
            ("/data-secret", Dir 0);
            ("/data-secret/x", File "top" 1)]) 1000.

Definition mixed_disk : world :=
  World (list_to_map
           [("/", Dir 0); ("/data", Dir 0);
            ("/data/A.TXT", File "hi" 1709210096789);
            ("/data/README", File "read me" 5);
            ("/data/.env", File "secret" 7)]) 1000.

Definition request (id : jsval) (method : string) (more : list (string * jsval)) : jsval :=
  JObj ([("jsonrpc", JStr "2.0"); ("id", id); ("method", JStr method)] ++ more).

Definition tool_call (id : jsval) (name : string) (args : jsval) : jsval :=
  request id "tool_call"
          [("params", JObj [("name", JStr name); ("arguments", args)])].

Definition initialize (id : jsval) : jsval := request id "initialize" [].

(** The arguments of [replace_text] that turn [http] into [https] in the
    file named [f] *)
Definition http_to_https (f : string) : jsval :=
  JObj [("filename", JStr f); ("search", JStr "http"); ("replace", JStr "https")].

End Sample.

(** ** Further notions *)

(** A component as [path.resolve] leaves it: not empty, not [.] or [..],
    and without a separator. *)
Definition clean (seg : string) : Prop :=
  seg <> "" /\ seg <> "." /\ seg <> ".." /\ free_of "/" seg.

(** A computation that leaves the file system as it found it, however
    it ends *)
Definition read_only {A} (m : M A) : Prop := forall w, snd (m w) = w.

(** The groups hold no key that every object inherits. *)
Definition plain_keys (groups : list (string * jsval)) : Prop :=
  forall k, is_Some (JS.own groups k) -> JS.inherited k = false.

(** The text that a read of [f] gives in [w]: [None] when the read
    throws, because no regular file is stored at [f] or a regular file
    stands on the way to it. *)
Definition readable (e : env) (w : world) (f : string) : option string :=
  if existsb (Fs.is_file w) (Fs.ancestors (Fs.abs e f)) then None
  else match entries w !! Fs.abs e f with
       | Some (File content _) => Some content
       | _ => None
       end.

(** [found_in e w query f]: the file [f] can be read and its text
    contains the text of [query].  It is [false] when the read throws,
    and when the conversion of [query] to a text throws. *)
Definition found_in (e : env) (w : world) (query : jsval) (f : string) : bool :=
  match readable e w f, JS.ToString query with
  | Some content, Ok q => Str.includes content q
  | _, _ => false
  end.

(** The group key of [file] by extension *)
Definition extension_key (file : string) : string :=
  Str.or_else (Str.slice 1 (Path.extname file)) "no-extension".

Module More.

(** A file whose extension is the name of a member of [Object.prototype] *)
Definition reserved_disk : world :=
  World (list_to_map
           [("/", Dir 0); ("/data", Dir 0);
            ("/data/notes.constructor", File "n" 5)]) 1000.

End More.

(** ** llm-client.js *)

Module Client.

(** The value that arrives when [v] is sent as JSON: [JSON.stringify]
    leaves out the properties that are [undefined] and writes [null] for
    the [undefined] elements of an array, and [JSON.parse] reads the
    text back. *)
Fixpoint wire (v : jsval) : jsval :=
  match v with
  | JArr items =>
      JArr ((fix elements (l : list jsval) : list jsval :=
               match l with
               | [] => []
               | JUndefined :: rest => JNull :: elements rest
               | x :: rest => wire x :: elements rest
               end) items)
  | JObj props =>
      JObj ((fix members (l : list (string * jsval)) : list (string * jsval) :=
               match l with
               | [] => []
               | (_, JUndefined) :: rest => members rest
               | (k, x) :: rest => (k, wire x) :: members rest
               end) props)
  | _ => v
  end.

(** [v[0]] *)
Definition first_of (v : jsval) : result jsval :=
  match v with
  | JUndefined | JNull =>
      Fail (TypeError ("Cannot read properties of " ++ JS.kind_of_nullish v
                       ++ " (reading '0')"))
  | JArr [] => Ok JUndefined
  | JArr (x :: _) => Ok x
  | JObj props => Ok (default JUndefined (JS.own props "0"))
  | JStr EmptyString => Ok JUndefined
  | JStr (String a _) =>
      if Nat.ltb (nat_of_ascii a) 128 then Ok (JStr (String a "")) else Unsupported
  | _ => Ok JUndefined
  end.

(** [data.result.content[0].text]; none of these names is inherited by
    a parsed value, so [JS.get] reads them. *)
Definition text_of (data : jsval) : result jsval :=
  match JS.get data "result" with
  | Ok r =>
      match JS.get r "content" with
      | Ok content =>
          match first_of content with
          | Ok first => JS.get first "text"
          | other => other
          end
      | other => other
      end
  | other => other
  end.

(** The error with which axios rejects an answer whose status is not
    between 200 and 299 *)
Definition status_error (status : Z) : exn :=
  Exn "AxiosError" ("Request failed with status code " ++ pretty status).

Section WithEnv.

(** The client's own reading of [config.json] *)
Variable e : env.

(** [config.MCP_SERVER_AUTH_TOKEN || "Super8Duper8Secret8T0ken"] *)
Definition authToken : string :=
  Str.or_else (default "" (MCP_SERVER_AUTH_TOKEN (cfg e))) "Super8Duper8Secret8T0ken".

(** The body that [callMcpTool] posts; [id] is [Date.now()]. *)
Definition tool_request (id : Z) (name args : jsval) : jsval :=
  JObj [("jsonrpc", JStr "2.0"); ("id", JNum id); ("method", JStr "tool_call");
        ("params", JObj [("name", name); ("arguments", args)])].

(** [axios.post(mcpServerUrl, data, { headers })] against a server that
    runs with the configuration [server_env]: the request reaches the
    listener of [mcp-server.js], which answers at once or after the
    body. *)
Definition post (server_env : env) (data : jsval) : M Server.reply :=
  match Server.server server_env
          (Server.Request "POST" "/mcp" (Some ("Bearer " ++ authToken))) with
  | Server.Respond r => ret r
  | Server.AwaitBody listener => listener (Server.JSONText (wire data))
  end.

(** [callMcpTool(toolCall)]: [name] is [toolCall.function.name] and
    [arguments_text] is [toolCall.function.arguments] as [JSON.parse]
    reads it. *)
Definition callMcpTool (server_env : env) (name : jsval) (arguments_text : Server.body)
  : M jsval :=
  match arguments_text with
  | Server.NotJSON msg => throw (SyntaxError msg)
  | Server.JSONText args =>
      let* id := Fs.clock in
      let* response := post server_env (tool_request id name args) in
      if (200 <=? Server.status response) && (Server.status response <? 300)
      then lift (text_of (wire (Server.payload response)))
      else throw (status_error (Server.status response))
  end.

End WithEnv.

(** The names of the tools that the client describes to the model *)
Definition tool_names : list string :=
  ["analyze_logs"; "search_files"; "organize_files"; "replace_text"; "delete_file";
   "fetch_external_data"].

End Client.

Module More2.

(** A client whose token is not the server's *)
Definition stranger : env := Env "/srv" (Config (Some "another-token") (Some "/data") (JBool false)).

End More2.

Module More3.

(** Two files of the same name in two directories *)
Definition twin_disk : world :=
  World (list_to_map
           [("/", Dir 0); ("/data", Dir 0); ("/data/a", Dir 0); ("/data/b", Dir 0);
            ("/data/a/x.txt", File "first" 5); ("/data/b/x.txt", File "second" 6)]) 1000.

End More3.

Module More4.

(** A store with a listed file that cannot be read: a regular file
    stands on the way to [/data/m/n.txt]. *)
Definition blocked_disk : world :=
  World (list_to_map
           [("/", Dir 0); ("/data", Dir 0);
            ("/data/a.txt", File "http://x" 5);
            ("/data/m", File "stop" 2);
            ("/data/m/n.txt", File "http://y" 3);
            ("/data/z.txt", File "see http" 4)]) 1000.

End More4.

(** ** llm-client.js: the provider and the key *)

Module Llm.

(** The client's settings in [config.json], each a text when it is set;
    [None] is a setting that is absent or [null]. *)
Record settings := Settings {
  API_PROVIDER : option string;
  LLM_API_KEY : option string;
  MODEL : option string
}.

(** An entry of [providers]; [apiKey] is [None] when it is [undefined]. *)
Record provider := Provider { url : string; model : string; apiKey : option string }.

Section WithSettings.

Variable c : settings.

(** [config.MODEL || fallback] *)
Definition model_or (fallback : string) : string :=
  Str.or_else (default "" (MODEL c)) fallback.

Definition deepseek : provider :=
  Provider "https://api.deepseek.com/v1/chat/completions"
           (model_or "deepseek-chat") (LLM_API_KEY c).

Definition openai : provider :=
  Provider "https://api.openai.com/v1/chat/completions" (model_or "gpt-4") (LLM_API_KEY c).

(** For Ollama the key is [config.LLM_API_KEY || ""]. *)
Definition ollama : provider :=
  Provider "http://localhost:11434/v1/chat/completions" (model_or "llama3")
           (Some (Str.or_else (default "" (LLM_API_KEY c)) "")).

(** [providers[config.API_PROVIDER] || providers.deepseek].  An absent
    setting reads the key ["undefined"].  [None] is what the lookup
    gives for the name of a member that [providers] inherits from
    [Object.prototype]: a truthy value that is kept and has no [url],
    [model] or [apiKey]. *)
Definition selected : option provider :=
  let key := match API_PROVIDER c with Some name => name | None => "undefined" end in
  if String.eqb key "deepseek" then Some deepseek
  else if String.eqb key "openai" then Some openai
  else if String.eqb key "ollama" then Some ollama
  else if JS.inherited key then None
  else Some deepseek.

(** [provider.apiKey] *)
Definition selected_key : option string :=
  match selected with Some p => apiKey p | None => None end.

(** The guard at the head of [main]: [!apiKey && provider.apiKey !== ""]
    stops the client. *)
Definition stops : bool :=
  match selected_key with
  | None => true
  | Some k => String.eqb k "" && negb (String.eqb k "")
  end.

End WithSettings.

End Llm.

(** * Properties *)

(** ** The path model on concrete inputs *)

Section PathExamples.
Example resolve_child : Path.resolve "/srv" ["/data"; "logs/../a.txt"] = "/data/a.txt".
Proof. reflexivity. Qed.
Example resolve_relative_root : Path.resolve "/srv" ["files"; "./a.txt"] = "/srv/files/a.txt".
Proof. reflexivity. Qed.
Example resolve_climb : Path.resolve "/srv" ["/data"; "../../etc/passwd"] = "/etc/passwd".
Proof. reflexivity. Qed.
Example resolve_root : Path.resolve "/srv" ["/"] = "/".
Proof. reflexivity. Qed.
Example extname_dotfile : Path.extname "/data/.bashrc" = "".
Proof. reflexivity. Qed.
Example extname_upper : Path.extname "/data/A.TXT" = ".TXT".
Proof. reflexivity. Qed.
Example extname_dots : Path.extname "/data/..." = "." /\ Path.extname "/data/a." = "."
                       /\ Path.extname "/data/.a.b" = ".b" /\ Path.extname ".." = "".
Proof. repeat split; reflexivity. Qed.
Example join_ex : Path.join ["/data"; "txt"] = "/data/txt" /\ Path.join ["files/"; "../x/"] = "x/".
Proof. repeat split; reflexivity. Qed.
Example relative_ex : Path.relative "/srv" "/data" "/data/txt/a.txt" = "txt/a.txt"
                      /\ Path.relative "/srv" "/data" "/data-secret/x" = "../data-secret/x"
                      /\ Path.relative "/srv" "files" "/srv/files/a" = "a".
Proof. repeat split; reflexivity. Qed.
End PathExamples.

Section ValueExamples.
Example stringify_ex :
  JS.JSON_stringify (JObj [("a", JArr [JNum 1; JUndefined; JStr "x"]); ("b", JUndefined); ("c", JNum (-12))])
  = Ok (Some (String "{" (String JS.dquote ("a" ++ String JS.dquote (":[1,null," ++ String JS.dquote ("x" ++
      String JS.dquote ("]," ++ String JS.dquote ("c" ++ String JS.dquote ":-12}")))))))).
Proof. vm_compute. reflexivity. Qed.
Example tostring_ex :
  JS.ToString (JArr [JStr "delete_file"]) = Ok "delete_file"
  /\ JS.ToString (JArr [JNum 1; JNull; JArr [JNum 2; JNum 3]]) = Ok "1,,2,3"
  /\ JS.ToString (JObj [("a", JNum 1)]) = Ok "[object Object]".
Proof. repeat split; vm_compute; reflexivity. Qed.
Example property_order :
  map fst (JS.set_property (JS.set_property (JS.set_property [] "txt" JNull) "7" JNull) "10" JNull)
  = ["7"; "10"; "txt"].
Proof. vm_compute. reflexivity. Qed.
End ValueExamples.

Section EngineExamples.
Example replace_ex :
  RegExp.replace "a-b-c" "-" (JStr "[$&$$]") = Ok "a[-$]b[-$]c"
  /\ RegExp.replace "aaa" "aa" (JStr "b") = Ok "ba"
  /\ RegExp.replace "xay" "a" (JStr "$`$'") = Ok "xxyy"
  /\ RegExp.matches "error 404, error 500" "error" = ["error"; "error"].
Proof. repeat split; vm_compute; reflexivity. Qed.
Example iso_ex :
  Date.toISOString 0 = Ok "1970-01-01T00:00:00.000Z"
  /\ Date.toISOString 1709210096789 = Ok "2024-02-29T12:34:56.789Z"
  /\ Date.toISOString (-1) = Ok "1969-12-31T23:59:59.999Z"
  /\ Date.toISOString 253402300800000 = Ok "+010000-01-01T00:00:00.000Z".
Proof. repeat split; vm_compute; reflexivity. Qed.
End EngineExamples.

(** ** Reading values *)

Lemma read_ok_any failure failure' v k x :
  JS.read failure v k = Ok x -> JS.read failure' v k = Ok x.
Proof. destruct v; simpl; intros H; try discriminate; exact H. Qed.

Lemma get_destructure src first v k x :
  JS.get v k = Ok x -> JS.destructure src first v k = Ok x.
Proof. apply read_ok_any. Qed.

Lemma get_param first v k x :
  JS.get v k = Ok x -> JS.param first v k = Ok x.
Proof. apply read_ok_any. Qed.

Lemma is_str_false v s : v <> JStr s -> JS.is_str v s = false.
Proof.
  destruct v; simpl; intros H; try reflexivity.
  destruct (String.eqb_spec s0 s); [subst; congruence | reflexivity].
Qed.

Lemma is_str_true v s : JS.is_str v s = true -> v = JStr s.
Proof.
  destruct v; simpl; try discriminate.
  intros H. apply String.eqb_eq in H. congruence.
Qed.

(** A read never fails on a value that is neither [undefined] nor
    [null]. *)
Lemma read_not_nullish failure v k :
  JS.is_nullish v = false ->
  JS.read failure v k = Unsupported \/ exists x, JS.read failure v k = Ok x.
Proof.
  destruct v; simpl; try discriminate; intros _; eauto.
  destruct (JS.string_method k); eauto.
Qed.

(** ** Paths confined to the root *)

Section Confinement.

Variable e : env.

(** What [ensureSafePath] returns is the resolution of the name against
    the root, and the text of the resolved root starts it. *)
Lemma ensureSafePath_returns filename p w w' :
  Tools.ensureSafePath e filename w = (Ok p, w') ->
  exists f, filename = JStr f /\ w' = w
            /\ p = Path.resolve (cwd e) [Tools.workingDir e; f]
            /\ Str.startsWith p (Path.resolve (cwd e) [Tools.workingDir e]) = true.
Proof.
  unfold Tools.ensureSafePath.
  destruct filename; try (unfold throw; discriminate).
  destruct (Str.startsWith _ _) eqn:Hp; simpl; unfold throw, ret; intros H;
    [ | discriminate ].
  injection H as <- <-. eauto.
Qed.

(** A name whose resolution does not start with the text of the
    resolved root is refused, and nothing is touched. *)
Lemma ensureSafePath_refuses f w :
  Str.startsWith (Path.resolve (cwd e) [Tools.workingDir e; f])
                 (Path.resolve (cwd e) [Tools.workingDir e]) = false ->
  Tools.ensureSafePath e (JStr f) w
  = (Fail (Error "Attempt to access path outside WORKING_DIR"), w).
Proof. intros H. unfold Tools.ensureSafePath. rewrite H. reflexivity. Qed.

End Confinement.

(** Parent-directory traversal and absolute paths elsewhere are refused. *)
Example ensureSafePath_traversal :
  fst (Tools.ensureSafePath Sample.deployment (JStr "../../etc/passwd") Sample.disk)
  = Fail (Error "Attempt to access path outside WORKING_DIR")
  /\ fst (Tools.ensureSafePath Sample.deployment (JStr "/etc/passwd") Sample.disk)
     = Fail (Error "Attempt to access path outside WORKING_DIR")
  /\ fst (Tools.ensureSafePath Sample.deployment (JStr "logs/../a.txt") Sample.disk)
     = Ok "/data/a.txt".
Proof. repeat split; reflexivity. Qed.

(** C1 (the code departs from the specification).  With root [/data], the name
    [../data-secret/x] resolves to [/data-secret/x], a file of a sibling
    directory that is not within the root; the text [/data] starts it, so
    [ensureSafePath] returns the path instead of throwing. *)
Theorem C1_sibling_directory_accepted :
  Tools.ensureSafePath Sample.deployment (JStr "../data-secret/x") Sample.disk
  = (Ok "/data-secret/x", Sample.disk)
  /\ Path.within (Path.resolve "/srv" [Tools.workingDir Sample.deployment]) "/data-secret/x"
     = false
  /\ fst (Tools.ensureSafePath Sample.deployment (JStr "/data-secret") Sample.disk)
     = Ok "/data-secret".
Proof. repeat split; reflexivity. Qed.

(** A tool then reads the sibling's file through the returned path. *)
Example sibling_file_read :
  fst (Tools.analyze_logs Sample.deployment
         (JObj [("pattern", JStr "top"); ("filename", JStr "../data-secret/x")])
         Sample.disk)
  = Ok (JObj [("matches", JArr [JStr "top"]); ("count", JNum 1)]).
Proof. vm_compute. reflexivity. Qed.

(** ** The dispatcher *)

Section Dispatcher.

Variable e : env.

(** A [tool_call] whose [params] can be destructured ends in one
    envelope: the tool's failure is caught.  (Or the call leaves the
    modelled fragment.) *)
Lemma tool_call_enveloped json id params name args w :
  JS.get json "method" = Ok (JStr "tool_call") ->
  JS.get json "id" = Ok id ->
  JS.get json "params" = Ok params ->
  JS.get params "name" = Ok name ->
  JS.get params "arguments" = Ok args ->
  match Server.handleSingleCall e json w with
  | (Ok resp, _) =>
      (exists text, resp = result_envelope id text)
      \/ (exists err, resp = error_envelope id (-32000) (message err))
  | (Fail _, _) => False
  | (Unsupported, _) => True
  end.
Proof.
  intros Hm Hi Hp Hn Ha. unfold Server.handleSingleCall. run.
  rewrite Hm, Hi. simpl. rewrite Hp.
  rewrite (get_destructure _ _ _ _ _ Hn), (get_destructure _ _ _ _ _ Ha).
  destruct (Tools.call e name args w) as [[result | err | ] w1].
  - destruct (JS.stringified result) as [text | err | ]; [left | right | ]; eauto.
  - right. eauto.
  - exact I.
Qed.

End Dispatcher.

(** C3 (the code departs from the specification).  A [tool_call] item without
    [params]: the destructuring of [json.params] stands before the [try],
    so its [TypeError] leaves [handleSingleCall] instead of becoming an
    envelope; the front-end then answers the whole body, whatever else
    it held, with status 500 and one envelope without [id]. *)
Theorem C3_missing_params_escape (e : env) (id : jsval) (w : world) :
  Server.handleSingleCall e (Sample.request id "tool_call" []) w
  = (Fail (TypeError "Cannot destructure property 'name' of 'json.params' as it is undefined."), w)
  /\ Server.on_end e
       (Server.JSONText (JArr [Sample.initialize (JNum 1); Sample.request id "tool_call" []])) w
     = (Ok (Server.Reply 500
              (JObj [("jsonrpc", JStr "2.0");
                     ("error", Server.error_object (-32000)
                        "Cannot destructure property 'name' of 'json.params' as it is undefined.")])),
        w).
Proof. split; reflexivity. Qed.

(** A [null] [params] escapes in the same way; a [params] that is a
    number, or a name that the registry lacks, is caught. *)
Example params_shapes :
  fst (Server.handleSingleCall Sample.deployment
         (Sample.request (JNum 7) "tool_call" [("params", JNull)]) Sample.disk)
  = Fail (TypeError "Cannot destructure property 'name' of 'json.params' as it is null.")
  /\ fst (Server.handleSingleCall Sample.deployment
            (Sample.request (JNum 7) "tool_call" [("params", JNum 5)]) Sample.disk)
     = Ok (error_envelope (JNum 7) (-32000) "tools[name] is not a function")
  /\ fst (Server.handleSingleCall Sample.deployment
            (Sample.tool_call (JNum 7) "no_such_tool" (JObj [])) Sample.disk)
     = Ok (error_envelope (JNum 7) (-32000) "tools[name] is not a function").
Proof. repeat split; vm_compute; reflexivity. Qed.

(** C6.  An [initialize] request is answered with the names of the
    registry: [delete_file] is among them when the deletion flag is
    [true] and left out when it is [false] (which is when [delete_file]
    itself is enabled and disabled); the four other names are always
    there. *)
Theorem C6_initialize_capabilities (e : env) (flag : bool) (json id : jsval) (w : world) :
  ALLOW_DELETE (cfg e) = JBool flag ->
  JS.get json "method" = Ok (JStr "initialize") ->
  JS.get json "id" = Ok id ->
  Server.handleSingleCall e json w
  = (Ok (capabilities_envelope id
           (["analyze_logs"; "search_files"; "organize_files"; "replace_text"]
              ++ (if flag then ["delete_file"] else []))), w)
  /\ Tools.allowDelete e = flag.
Proof.
  intros Hflag Hm Hi. unfold Server.handleSingleCall, Tools.allowDelete. run.
  rewrite Hm, Hi, Hflag. simpl. destruct flag; split; reflexivity.
Qed.

Lemma C6_initialize_capabilities_witness :
  Server.handleSingleCall (Sample.with_delete true) (Sample.initialize (JNum 1)) Sample.disk
  = (Ok (capabilities_envelope (JNum 1)
           ["analyze_logs"; "search_files"; "organize_files"; "replace_text"; "delete_file"]),
     Sample.disk)
  /\ Server.handleSingleCall (Sample.with_delete false) (Sample.initialize (JNum 1)) Sample.disk
     = (Ok (capabilities_envelope (JNum 1)
              ["analyze_logs"; "search_files"; "organize_files"; "replace_text"]),
        Sample.disk).
Proof.
  split.
  - apply (C6_initialize_capabilities (Sample.with_delete true) true); reflexivity.
  - apply (C6_initialize_capabilities (Sample.with_delete false) false); reflexivity.
Defined.

(** C7.  With deletion disabled, a [delete_file] call on any arguments
    object is answered with the error envelope written out below, of
    code -32000 and with the message that says so, under the [id] of the
    request, and the file system is left as it was: a file that was
    there is still there. *)
Theorem C7_delete_disabled (e : env) (json id params args : jsval) (w : world) :
  Tools.allowDelete e = false ->
  JS.get json "method" = Ok (JStr "tool_call") ->
  JS.get json "id" = Ok id ->
  JS.get json "params" = Ok params ->
  JS.get params "name" = Ok (JStr "delete_file") ->
  JS.get params "arguments" = Ok args ->
  JS.is_nullish args = false ->
  Server.handleSingleCall e json w
  = (Ok (JObj [("jsonrpc", JStr "2.0");
               ("id", id);
               ("error", JObj [("code", JNum (-32000));
                               ("message",
                                JStr "File deletion is disabled in configuration")])]),
     w).
Proof.
  intros Hoff Hm Hi Hp Hn Ha Hargs. unfold Server.handleSingleCall. run.
  rewrite Hm, Hi. simpl. rewrite Hp.
  rewrite (get_destructure _ _ _ _ _ Hn), (get_destructure _ _ _ _ _ Ha).
  unfold Tools.call. run. simpl. unfold Tools.delete_file. run.
  rewrite Hoff.
  destruct args; try discriminate; simpl; reflexivity.
Qed.

Lemma C7_delete_disabled_witness :
  Server.handleSingleCall Sample.deployment
    (Sample.tool_call (JNum 3) "delete_file" (JObj [("filename", JStr "a.txt")])) Sample.disk
  = (Ok (JObj [("jsonrpc", JStr "2.0");
               ("id", JNum 3);
               ("error", JObj [("code", JNum (-32000));
                               ("message",
                                JStr "File deletion is disabled in configuration")])]),
     Sample.disk)
  /\ entries Sample.disk !! "/data/a.txt" = Some (File "http://x" 5).
Proof.
  split.
  - apply (C7_delete_disabled Sample.deployment _ (JNum 3)
             (JObj [("name", JStr "delete_file"); ("arguments", JObj [("filename", JStr "a.txt")])])
             (JObj [("filename", JStr "a.txt")])); reflexivity.
  - vm_compute. reflexivity.
Defined.

(** With deletion enabled the same call removes the file. *)
Example delete_enabled :
  fst (Tools.delete_file (Sample.with_delete true) (JObj [("filename", JStr "a.txt")]) Sample.disk)
  = Ok (JStr "File deleted: /data/a.txt")
  /\ entries (snd (Tools.delete_file (Sample.with_delete true)
                     (JObj [("filename", JStr "a.txt")]) Sample.disk)) !! "/data/a.txt" = None.
Proof. split; vm_compute; reflexivity. Qed.

(** A flag set to a value that is truthy without being [true] is read
    differently by the two files: the name is announced while the tool
    stays disabled. *)
Example truthy_flag :
  fst (Server.handleSingleCall (Env "/srv" (Config None (Some "/data") (JStr "yes")))
         (Sample.initialize (JNum 1)) Sample.disk)
  = Ok (capabilities_envelope (JNum 1)
          ["analyze_logs"; "search_files"; "organize_files"; "replace_text"; "delete_file"])
  /\ Tools.allowDelete (Env "/srv" (Config None (Some "/data") (JStr "yes"))) = false.
Proof. split; reflexivity. Qed.

(** ** The front-end *)

Lemma bearer_not_empty tok : String.eqb ("Bearer " ++ tok) "" = false.
Proof. reflexivity. Qed.

(** C8.  On the protocol endpoint, with [token] the token of the
    configuration (the setting [MCP_SERVER_AUTH_TOKEN] when it is set
    and not empty, the built-in default otherwise), a request whose
    [Authorization] header is absent or differs from [Bearer <token>]
    is answered at once with status 401 and the envelope of code -32001
    written out below: no listener for the body is installed, so the
    body is not parsed and nothing is dispatched.  Exactly the requests
    with the matching header are left to the listener that parses and
    dispatches. *)
Theorem C8_bearer_check (e : env) (req : Server.request) (token : string) :
  Server.http_method req = "POST" ->
  Server.url req = "/mcp" ->
  (MCP_SERVER_AUTH_TOKEN (cfg e) = Some token /\ token <> "")
  \/ (token = "Super8Duper8Secret8T0ken"
      /\ (MCP_SERVER_AUTH_TOKEN (cfg e) = None \/ MCP_SERVER_AUTH_TOKEN (cfg e) = Some "")) ->
  (Server.authorization req <> Some ("Bearer " ++ token) ->
   Server.server e req
   = Server.Respond
       (Server.Reply 401
          (JObj [("jsonrpc", JStr "2.0");
                 ("error", JObj [("code", JNum (-32001));
                                 ("message", JStr "Unauthorized")])])))
  /\ (Server.authorization req = Some ("Bearer " ++ token) ->
      Server.server e req = Server.AwaitBody (Server.on_end e)).
Proof.
  intros Hm Hu Hconf.
  assert (Htoken : Server.authToken e = token).
  { unfold Server.authToken.
    destruct Hconf as [[-> Hset] | [-> [-> | ->]]]; [ | reflexivity | reflexivity].
    destruct token; [congruence | reflexivity]. }
  rewrite <- Htoken. unfold Server.server. rewrite Hm, Hu. simpl.
  split; intros Hauth.
  - destruct (Server.authorization req) as [h | ]; [ | reflexivity ].
    destruct (String.eqb_spec h ""); simpl; [reflexivity | ].
    destruct (String.eqb_spec h ("Bearer " ++ Server.authToken e)); simpl;
      [ subst; congruence | reflexivity ].
  - rewrite Hauth. simpl. rewrite String.eqb_refl. reflexivity.
Qed.

Lemma C8_bearer_check_witness :
  Server.server Sample.deployment (Server.Request "POST" "/mcp" (Some "Bearer wrong"))
  = Server.Respond
      (Server.Reply 401
         (JObj [("jsonrpc", JStr "2.0");
                ("error", JObj [("code", JNum (-32001)); ("message", JStr "Unauthorized")])]))
  /\ Server.server Sample.deployment (Server.Request "POST" "/mcp" None)
     = Server.Respond
         (Server.Reply 401
            (JObj [("jsonrpc", JStr "2.0");
                   ("error", JObj [("code", JNum (-32001));
                                   ("message", JStr "Unauthorized")])]))
  /\ Server.server Sample.deployment
       (Server.Request "POST" "/mcp" (Some "Bearer Super8Duper8Secret8T0ken"))
     = Server.AwaitBody (Server.on_end Sample.deployment)
  /\ Server.server More2.stranger
       (Server.Request "POST" "/mcp" (Some "Bearer Super8Duper8Secret8T0ken"))
     = Server.Respond
         (Server.Reply 401
            (JObj [("jsonrpc", JStr "2.0");
                   ("error", JObj [("code", JNum (-32001));
                                   ("message", JStr "Unauthorized")])]))
  /\ Server.server More2.stranger
       (Server.Request "POST" "/mcp" (Some "Bearer another-token"))
     = Server.AwaitBody (Server.on_end More2.stranger).
Proof.
  split; [ | split; [ | split; [ | split]]].
  - apply (C8_bearer_check Sample.deployment
             (Server.Request "POST" "/mcp" (Some "Bearer wrong"))
             "Super8Duper8Secret8T0ken");
      [ reflexivity | reflexivity | right; split; [reflexivity | left; reflexivity]
      | discriminate ].
  - apply (C8_bearer_check Sample.deployment (Server.Request "POST" "/mcp" None)
             "Super8Duper8Secret8T0ken");
      [ reflexivity | reflexivity | right; split; [reflexivity | left; reflexivity]
      | discriminate ].
  - apply (C8_bearer_check Sample.deployment
             (Server.Request "POST" "/mcp" (Some "Bearer Super8Duper8Secret8T0ken"))
             "Super8Duper8Secret8T0ken");
      [ reflexivity | reflexivity | right; split; [reflexivity | left; reflexivity]
      | reflexivity ].
  - apply (C8_bearer_check More2.stranger
             (Server.Request "POST" "/mcp" (Some "Bearer Super8Duper8Secret8T0ken"))
             "another-token");
      [ reflexivity | reflexivity | left; split; [reflexivity | discriminate]
      | discriminate ].
  - apply (C8_bearer_check More2.stranger
             (Server.Request "POST" "/mcp" (Some "Bearer another-token"))
             "another-token");
      [ reflexivity | reflexivity | left; split; [reflexivity | discriminate]
      | reflexivity ].
Defined.

(** Any other method or path is answered with status 404. *)
Lemma other_routes e req :
  Server.http_method req <> "POST" \/ Server.url req <> "/mcp" ->
  exists envelope, Server.server e req = Server.Respond (Server.Reply 404 envelope).
Proof.
  intros H. unfold Server.server.
  destruct (String.eqb_spec (Server.http_method req) "POST");
    destruct (String.eqb_spec (Server.url req) "/mcp"); simpl; eauto.
  destruct H; congruence.
Qed.

(** ** The envelopes of the dispatcher *)

Lemma member_envelope id rest :
  member (JObj (("jsonrpc", JStr "2.0") :: ("id", id) :: rest)) "id"
  = match id with JUndefined => None | _ => Some id end.
Proof. unfold member. simpl. destruct id; reflexivity. Qed.

(** Whatever [handleSingleCall] returns starts with the protocol version
    and the [id] read from the request. *)
Lemma handleSingleCall_id e json w resp w' :
  Server.handleSingleCall e json w = (Ok resp, w') ->
  exists id rest,
    JS.get json "id" = Ok id
    /\ resp = JObj (("jsonrpc", JStr "2.0") :: ("id", id) :: rest).
Proof.
  unfold Server.handleSingleCall. run.
  destruct (JS.get json "method") as [method | | ]; try discriminate.
  destruct (JS.get json "id") as [id | | ]; try discriminate.
  destruct (JS.is_str method "tool_call").
  - destruct (JS.get json "params") as [params | | ]; try discriminate.
    destruct (JS.destructure _ _ params "name") as [name | | ]; try discriminate.
    destruct (JS.destructure _ _ params "arguments") as [args | | ]; try discriminate.
    destruct (Tools.call e name args w) as [[result | err | ] w1]; try discriminate.
    + destruct (JS.stringified result) as [text | err | ]; try discriminate;
        intros H; injection H as <- <-; eauto.
    + intros H; injection H as <- <-; eauto.
  - destruct (JS.is_str method "initialize"); intros H; injection H as <- <-; eauto.
Qed.

(** ** Batches and the shape of the answer *)

Lemma handleEach_answered e items : forall w rs w',
  Server.handleEach e items w = (Ok rs, w') -> answered e w items rs w'.
Proof.
  induction items as [ | item items IH]; intros w rs w'; simpl; run.
  - intros H. injection H as <- <-. constructor.
  - destruct (Server.handleSingleCall e item w) as [[resp | err | ] w1] eqn:Hitem;
      try discriminate.
    destruct (Server.handleEach e items w1) as [[resps | err | ] w2] eqn:Hrest;
      try discriminate.
    intros H. injection H as <- <-.
    econstructor; [exact Hitem | apply IH; exact Hrest].
Qed.

Lemma answered_length e w items rs w' :
  answered e w items rs w' -> length rs = length items.
Proof. induction 1; simpl; congruence. Qed.

(** Every response is an object. *)
Lemma answered_objects e w items rs w' :
  answered e w items rs w' -> Forall (fun r => exists props, r = JObj props) rs.
Proof.
  induction 1 as [ | w item resp w1 items resps w2 Hitem _ IH]; constructor; [ | exact IH].
  destruct (handleSingleCall_id _ _ _ _ _ Hitem) as (id & more & _ & ->). eauto.
Qed.

(** C2 (as amended).  When every item is dispatched without a fault, the
    answer has status 200 and its shape follows the number of responses:
    a body that is not an array yields its one response object; an array
    of N items yields N response objects, computed in order, sent as an
    array when N is not 1 and as the bare response object when N is 1. *)
Theorem C2_response_shape (e : env) (json : jsval) (w : world) (rs : list jsval) (w' : world) :
  Server.collect e json w = (Ok rs, w') ->
  Server.on_end e (Server.JSONText json) w
  = (Ok (Server.Reply 200 (match rs with [r] => r | _ => JArr rs end)), w')
  /\ Forall (fun r => exists props, r = JObj props) rs
  /\ match json with
     | JArr items => length rs = length items /\ answered e w items rs w'
     | _ => exists r, rs = [r] /\ Server.handleSingleCall e json w = (Ok r, w')
     end.
Proof.
  intros H. split; [ | split ].
  - unfold Server.on_end. run. rewrite H. reflexivity.
  - assert (Hsingle : (let* resp := Server.handleSingleCall e json in ret [resp]) w = (Ok rs, w')
                      -> Forall (fun r => exists props, r = JObj props) rs).
    { run. destruct (Server.handleSingleCall e json w) as [[r | err | ] w1] eqn:Hcall;
        try discriminate.
      intros E. injection E as <- <-. constructor; [ | constructor].
      destruct (handleSingleCall_id _ _ _ _ _ Hcall) as (id & more & _ & ->). eauto. }
    destruct json; simpl in H; try (apply Hsingle; exact H).
    eapply answered_objects, handleEach_answered, H.
  - assert (Hsingle : (let* resp := Server.handleSingleCall e json in ret [resp]) w = (Ok rs, w')
                      -> exists r, rs = [r] /\ Server.handleSingleCall e json w = (Ok r, w')).
    { run. destruct (Server.handleSingleCall e json w) as [[r | err | ] w1];
        try discriminate.
      intros E. injection E as <- <-. eauto. }
    destruct json; simpl in H; try (apply Hsingle; exact H).
    apply handleEach_answered in H. split; [eapply answered_length | ]; exact H.
Qed.

Lemma C2_response_shape_witness :
  Server.on_end Sample.deployment
    (Server.JSONText (JArr [Sample.initialize (JNum 1); Sample.request (JNum 2) "ping" []]))
    Sample.disk
  = (Ok (Server.Reply 200
           (JArr [capabilities_envelope (JNum 1)
                    ["analyze_logs"; "search_files"; "organize_files"; "replace_text"];
                  error_envelope (JNum 2) (-32600) "Invalid method"])),
     Sample.disk).
Proof.
  apply (C2_response_shape Sample.deployment
           (JArr [Sample.initialize (JNum 1); Sample.request (JNum 2) "ping" []])
           Sample.disk
           [capabilities_envelope (JNum 1)
              ["analyze_logs"; "search_files"; "organize_files"; "replace_text"];
            error_envelope (JNum 2) (-32600) "Invalid method"]
           Sample.disk).
  reflexivity.
Defined.

(** C2 (the specification as stated fails).  A batch of one request is answered
    with the bare response object, as a request outside any array is:
    the answer is not an array of one. *)
Lemma C2_singleton_batch_unwrapped :
  Server.on_end Sample.deployment
    (Server.JSONText (JArr [Sample.initialize (JNum 1)])) Sample.disk
  = Server.on_end Sample.deployment (Server.JSONText (Sample.initialize (JNum 1))) Sample.disk
  /\ fst (Server.on_end Sample.deployment
            (Server.JSONText (JArr [Sample.initialize (JNum 1)])) Sample.disk)
     = Ok (Server.Reply 200
             (capabilities_envelope (JNum 1)
                ["analyze_logs"; "search_files"; "organize_files"; "replace_text"]))
  /\ fst (Server.on_end Sample.deployment
            (Server.JSONText (JArr [Sample.initialize (JNum 1)])) Sample.disk)
     <> Ok (Server.Reply 200
              (JArr [capabilities_envelope (JNum 1)
                       ["analyze_logs"; "search_files"; "organize_files"; "replace_text"]])).
Proof. repeat split; try reflexivity. discriminate. Qed.

(** An empty batch is answered with an empty array. *)
Example empty_batch e w :
  Server.on_end e (Server.JSONText (JArr [])) w = (Ok (Server.Reply 200 (JArr [])), w).
Proof. reflexivity. Qed.

(** ** Correlation ids *)

(** C9 (as amended).  Every envelope that the dispatcher returns carries
    the [id] of the request it answers, and goes on the wire without an
    [id] member when the request had none.  The envelopes that the
    front-end builds itself (status 401, 404 and 500) have no [id]
    member at all. *)
Theorem C9_id_echo (e : env) :
  (forall json w resp w',
      Server.handleSingleCall e json w = (Ok resp, w') ->
      exists id,
        JS.get json "id" = Ok id
        /\ JS.own_property resp "id" = Some id
        /\ member resp "id" = match id with JUndefined => None | _ => Some id end)
  /\ (forall b w r w',
         Server.on_end e b w = (Ok r, w') ->
         Server.status r = 500 -> member (Server.payload r) "id" = None)
  /\ (forall req r,
         Server.server e req = Server.Respond r -> member (Server.payload r) "id" = None).
Proof.
  split; [ | split ].
  - intros json w resp w' H.
    destruct (handleSingleCall_id _ _ _ _ _ H) as (id & rest & Hid & ->).
    exists id. split; [exact Hid | ]. split; [reflexivity | apply member_envelope].
  - intros b w r w'. unfold Server.on_end. run.
    destruct b as [msg | json].
    + intros H. injection H as <- <-. reflexivity.
    + destruct (Server.collect e json w) as [[rs | err | ] w1]; try discriminate;
        intros H; injection H as <- <-; [ simpl; discriminate | reflexivity ].
  - intros req r. unfold Server.server.
    destruct (_ && _); [ destruct (Server.authorization req) as [h | ];
                         [ destruct (_ || _) | ] | ]; try discriminate;
      intros H; injection H as <-; reflexivity.
Qed.

Lemma C9_id_echo_witness :
  member (error_envelope (JStr "req-9") (-32600) "Invalid method") "id" = Some (JStr "req-9").
Proof.
  destruct (proj1 (C9_id_echo Sample.deployment)
              (Sample.request (JStr "req-9") "ping" []) Sample.disk
              (error_envelope (JStr "req-9") (-32600) "Invalid method") Sample.disk
              eq_refl) as (id & Hid & _ & Hmember).
  injection Hid as <-. exact Hmember.
Defined.

(** C9 (the specification as stated fails).  The envelope sent for a body that
    does not parse has no [id] member: it does not carry [id: null].
    Nor does the envelope sent without the right token. *)
Lemma C9_no_null_id :
  (exists envelope,
      fst (Server.on_end Sample.deployment
             (Server.NotJSON "Unexpected end of JSON input") Sample.disk)
      = Ok (Server.Reply 500 envelope)
      /\ JS.own_property envelope "id" = None
      /\ member envelope "id" <> Some JNull)
  /\ member (Server.payload Server.unauthorized) "id" <> Some JNull.
Proof.
  split.
  - eexists. split; [reflexivity | split; [reflexivity | discriminate]].
  - discriminate.
Qed.

(** ** Searching *)

(** C10.  A [by] that is given and is none of ["name"], ["content"] and
    ["date"] is accepted: the search returns the empty list, whatever
    the query, and fails with no error. *)
Theorem C10_unknown_selector (e : env) (args query by_ : jsval) (w : world) :
  JS.get args "query" = Ok query ->
  JS.get args "by" = Ok by_ ->
  by_ <> JUndefined ->
  by_ <> JStr "name" -> by_ <> JStr "content" -> by_ <> JStr "date" ->
  existsb Fs.glob_magic (list_ascii_of_string (Tools.workingDir e)) = false ->
  Tools.search_files e args w = (Ok (JArr []), w).
Proof.
  intros Hq Hb Hdef Hname Hcontent Hdate Hplain.
  unfold Tools.search_files, Tools.param_default. run.
  rewrite (get_param _ _ _ _ Hq), (get_param _ _ _ _ Hb).
  assert (Hby : match by_ with JUndefined => JStr "name" | _ => by_ end = by_)
    by (destruct by_; congruence).
  rewrite Hby. unfold Fs.glob_files. rewrite Hplain.
  rewrite (is_str_false _ _ Hname), (is_str_false _ _ Hcontent), (is_str_false _ _ Hdate).
  reflexivity.
Qed.

Lemma C10_unknown_selector_witness :
  Tools.search_files Sample.deployment
    (JObj [("query", JStr "a"); ("by", JStr "size")]) Sample.disk
  = (Ok (JArr []), Sample.disk).
Proof.
  apply (C10_unknown_selector Sample.deployment _ (JStr "a") (JStr "size"));
    try reflexivity; discriminate.
Defined.

(** Without [by] the search is by name; with it the three selectors find
    their files. *)
Example search_selectors :
  fst (Tools.search_files Sample.deployment (JObj [("query", JStr "a")]) Sample.disk)
  = Ok (JArr [JStr "a.txt"])
  /\ fst (Tools.search_files Sample.deployment
            (JObj [("query", JStr "http"); ("by", JStr "content")]) Sample.disk)
     = Ok (JArr [JStr "a.txt"])
  /\ fst (Tools.search_files Sample.deployment
            (JObj [("query", JStr "1970-01-01"); ("by", JStr "date")]) Sample.disk)
     = Ok (JArr [JStr "a.txt"])
  /\ fst (Tools.search_files Sample.deployment
            (JObj [("query", JStr "a"); ("by", JNull)]) Sample.disk)
     = Ok (JArr []).
Proof. repeat split; vm_compute; reflexivity. Qed.

(** ** The file system calls *)

Section FileSystem.

Variable e : env.

Lemma find_ok call p w n w' :
  Fs.find e call p w = (Ok n, w') ->
  existsb (Fs.is_file w) (Fs.ancestors (Fs.abs e p)) = false
  /\ n = entries w !! Fs.abs e p /\ w' = w.
Proof.
  unfold Fs.find. destruct (existsb _ _); [discriminate | ].
  intros H. injection H as <- <-. auto.
Qed.

Lemma find_intro call p w :
  existsb (Fs.is_file w) (Fs.ancestors (Fs.abs e p)) = false ->
  Fs.find e call p w = (Ok (entries w !! Fs.abs e p), w).
Proof. unfold Fs.find. intros ->. reflexivity. Qed.

(** The call that fails does not matter to a search that succeeds. *)
Lemma find_any_call call call' p w n w' :
  Fs.find e call p w = (Ok n, w') -> Fs.find e call' p w = (Ok n, w').
Proof.
  intros H. apply find_ok in H as (Hclear & -> & ->). apply find_intro, Hclear.
Qed.

(** A regular file is not one of the directories above itself. *)
Lemma file_not_own_ancestor w p content t :
  existsb (Fs.is_file w) (Fs.ancestors p) = false ->
  entries w !! p = Some (File content t) ->
  ~ In p (Fs.ancestors p).
Proof.
  intros Hclear Hfile Hin.
  assert (existsb (Fs.is_file w) (Fs.ancestors p) = true) as Hyes.
  { apply existsb_exists. exists p. split; [exact Hin | ].
    unfold Fs.is_file. rewrite Hfile. reflexivity. }
  congruence.
Qed.

(** Writing a regular file where one was leaves the directories above
    it clear. *)
Lemma ancestors_clear_after_put w p content t content' t' :
  existsb (Fs.is_file w) (Fs.ancestors p) = false ->
  entries w !! p = Some (File content t) ->
  existsb (Fs.is_file (World (<[p := File content' t']> (entries w)) (now w)))
          (Fs.ancestors p) = false.
Proof.
  intros Hclear Hfile.
  pose proof (file_not_own_ancestor _ _ _ _ Hclear Hfile) as Hself.
  apply not_true_is_false. intros Hyes.
  apply existsb_exists in Hyes as (a & Hin & Ha).
  assert (a <> p) as Hne by (intros ->; exact (Hself Hin)).
  unfold Fs.is_file in Ha. simpl in Ha. rewrite lookup_insert_ne in Ha by congruence.
  assert (existsb (Fs.is_file w) (Fs.ancestors p) = true); [ | congruence ].
  apply existsb_exists. exists a. split; [exact Hin | exact Ha].
Qed.

Lemma stored_exists w p content t :
  stored e w p content t -> Fs.existsSync e p w = (Ok true, w).
Proof.
  intros [Hfind _]. apply find_ok in Hfind as (Hclear & Hnode & _).
  unfold Fs.existsSync. rewrite Hclear, <- Hnode. reflexivity.
Qed.

Lemma stored_read w p content t :
  stored e w p content t -> Fs.readFileSync e p w = (Ok content, w).
Proof. intros [Hfind _]. unfold Fs.readFileSync. run. rewrite Hfind. reflexivity. Qed.

(** [writeFileSync] on a stored file replaces its text and stamps it
    with the time of the call. *)
Lemma stored_write w p content t data :
  stored e w p content t ->
  Fs.writeFileSync e p data w
  = (Ok tt, World (<[Fs.abs e p := File data (now w)]> (entries w)) (now w))
  /\ stored e (World (<[Fs.abs e p := File data (now w)]> (entries w)) (now w))
            p data (now w).
Proof.
  intros [Hfind Hdir]. split.
  - unfold Fs.writeFileSync, Fs.clock, Fs.put. run. rewrite Hfind, Hdir. reflexivity.
  - pose proof (find_ok _ _ _ _ _ Hfind) as (Hclear & Hnode & _). split.
    + rewrite find_intro by (eapply ancestors_clear_after_put; eauto).
      simpl. rewrite lookup_insert_eq. reflexivity.
    + unfold Fs.dir_exists in *. cbv beta in Hdir. injection Hdir as Hdir.
      f_equal. f_equal.
      apply orb_true_iff in Hdir. apply orb_true_iff.
      destruct Hdir as [Hroot | Hd]; [left; exact Hroot | right].
      unfold Fs.is_dir in *. cbn [entries].
      destruct (decide (Fs.abs e p = Fs.parent (Fs.abs e p))) as [Heq | Hne].
      * rewrite <- Heq, <- Hnode in Hd. discriminate.
      * rewrite lookup_insert_ne by exact Hne. exact Hd.
Qed.

End FileSystem.

(** ** Replacing text *)

Lemma ensureSafePath_any_world e filename w0 r w :
  Tools.ensureSafePath e filename w0 = (r, w0) ->
  Tools.ensureSafePath e filename w = (r, w).
Proof.
  unfold Tools.ensureSafePath. destruct filename; run;
    try (intros H; injection H as <-; reflexivity).
  destruct (negb _); intros H; injection H as <-; reflexivity.
Qed.

(** One run of [replace_text] on a stored file, for a pattern of the
    literal fragment: the text is replaced by what the global replace
    makes of it. *)
Lemma replace_text_run e args f search replace re p content content' t w :
  JS.get args "search" = Ok search ->
  JS.get args "replace" = Ok replace ->
  JS.get args "filename" = Ok (JStr f) ->
  Tools.ensureSafePath e (JStr f) w = (Ok p, w) ->
  stored e w p content t ->
  RegExp.create search = Ok re ->
  RegExp.replace content re replace = Ok content' ->
  Tools.replace_text e args w
  = (Ok (JStr ("Text replaced in " ++ p)),
     World (<[Fs.abs e p := File content' (now w)]> (entries w)) (now w)).
Proof.
  intros Hs Hr Hf Hsafe Hstored Hre Hnew. unfold Tools.replace_text. run.
  rewrite (get_param _ _ _ _ Hs), (get_param _ _ _ _ Hr), (get_param _ _ _ _ Hf).
  rewrite Hsafe, (stored_exists _ _ _ _ _ Hstored). simpl.
  rewrite (stored_read _ _ _ _ _ Hstored), Hre, Hnew.
  destruct (stored_write _ _ _ _ _ content' Hstored) as [-> _]. reflexivity.
Qed.

(** C4 (as amended).  On a file that holds [http://x], [replace_text]
    with search [http] and replace [https] leaves [https://x]; the same
    call run again on the result leaves [httpss://x]: every occurrence
    of [http] in the current text is replaced each time. *)
Theorem C4_replace_http_twice (e : env) (f p : string) (t : Z) (w : world) :
  Tools.ensureSafePath e (JStr f) w = (Ok p, w) ->
  stored e w p "http://x" t ->
  exists w1 w2,
    Tools.replace_text e (Sample.http_to_https f) w
    = (Ok (JStr ("Text replaced in " ++ p)), w1)
    /\ Fs.readFileSync e p w1 = (Ok "https://x", w1)
    /\ Tools.replace_text e (Sample.http_to_https f) w1
       = (Ok (JStr ("Text replaced in " ++ p)), w2)
    /\ Fs.readFileSync e p w2 = (Ok "httpss://x", w2).
Proof.
  intros Hsafe Hstored.
  destruct (stored_write _ _ _ _ _ "https://x" Hstored) as [_ Hstored1].
  set (w1 := World (<[Fs.abs e p := File "https://x" (now w)]> (entries w)) (now w)) in *.
  destruct (stored_write _ _ _ _ _ "httpss://x" Hstored1) as [_ Hstored2].
  exists w1, (World (<[Fs.abs e p := File "httpss://x" (now w1)]> (entries w1)) (now w1)).
  split; [ | split; [ | split ] ].
  - eapply replace_text_run; eauto; reflexivity.
  - eapply stored_read; eauto.
  - eapply replace_text_run; eauto using ensureSafePath_any_world; reflexivity.
  - eapply stored_read; eauto.
Qed.

Lemma C4_replace_http_twice_witness :
  exists w1 w2,
    Tools.replace_text Sample.deployment (Sample.http_to_https "a.txt") Sample.disk
    = (Ok (JStr "Text replaced in /data/a.txt"), w1)
    /\ Fs.readFileSync Sample.deployment "/data/a.txt" w1 = (Ok "https://x", w1)
    /\ Tools.replace_text Sample.deployment (Sample.http_to_https "a.txt") w1
       = (Ok (JStr "Text replaced in /data/a.txt"), w2)
    /\ Fs.readFileSync Sample.deployment "/data/a.txt" w2 = (Ok "httpss://x", w2).
Proof.
  apply (C4_replace_http_twice Sample.deployment "a.txt" "/data/a.txt" 5 Sample.disk).
  - reflexivity.
  - split; vm_compute; reflexivity.
Defined.

(** C4 (the specification as stated fails).  The second run does not leave
    [https://x] unchanged: it finds [http] again at the head of [https]
    and the file ends as [httpss://x]. *)
Lemma C4_second_run_doubles :
  fst (Fs.readFileSync Sample.deployment "/data/a.txt"
         (snd (Tools.replace_text Sample.deployment (Sample.http_to_https "a.txt")
                 Sample.disk)))
  = Ok "https://x"
  /\ fst (Fs.readFileSync Sample.deployment "/data/a.txt"
            (snd (Tools.replace_text Sample.deployment (Sample.http_to_https "a.txt")
                    (snd (Tools.replace_text Sample.deployment
                            (Sample.http_to_https "a.txt") Sample.disk)))))
     = Ok "httpss://x"
  /\ RegExp.replace "https://x" "http" (JStr "https") <> Ok "https://x".
Proof. repeat split; try (vm_compute; reflexivity). vm_compute. discriminate. Qed.

(** ** Calendar days *)

Lemma free_of_app c s1 s2 : free_of c s1 -> free_of c s2 -> free_of c (s1 ++ s2).
Proof. induction s1 as [ | a s1 IH]; simpl; [auto | intros [Ha H1] H2; auto]. Qed.

Lemma digit_not_T d : 0 <= d < 10 -> Date.digit d <> "T"%char.
Proof.
  intros Hd. unfold Date.digit.
  assert (Hn : (Z.to_nat d < 10)%nat) by lia.
  destruct (Z.to_nat d) as [ | [ | [ | [ | [ | [ | [ | [ | [ | [ | n]]]]]]]]]];
    try discriminate; lia.
Qed.

Lemma digits_free_of_T width : forall n, free_of "T" (Date.digits width n).
Proof.
  induction width as [ | width IH]; intros n; simpl; [exact I | ].
  apply free_of_app; [apply IH | ].
  simpl. split; [ | exact I]. apply digit_not_T. apply Z.mod_pos_bound. lia.
Qed.

Lemma dash_free_of_T : free_of "T" "-".
Proof. simpl. split; [discriminate | exact I]. Qed.

Lemma year_text_free_of_T y : free_of "T" (Date.year_text y).
Proof.
  unfold Date.year_text. destruct (_ && _); [apply digits_free_of_T | ].
  apply free_of_app; [ | apply digits_free_of_T].
  destruct (_ <? _); simpl; (split; [discriminate | exact I]).
Qed.

Lemma iso_date_free_of_T t : free_of "T" (Date.iso_date t).
Proof.
  unfold Date.iso_date. destruct (Date.civil _) as [[y m] d].
  apply free_of_app; [apply year_text_free_of_T | ].
  apply free_of_app; [apply dash_free_of_T | ].
  apply free_of_app; [apply digits_free_of_T | ].
  apply free_of_app; [apply dash_free_of_T | apply digits_free_of_T].
Qed.

(** What [split] puts first is the text before the first separator. *)
Lemma split_first c s rest :
  free_of c s -> hd "" (Str.split c (s ++ String c rest)) = s.
Proof.
  induction s as [ | a s IH]; simpl.
  - intros _. rewrite Ascii.eqb_refl. reflexivity.
  - intros [Ha Hs]. apply Ascii.eqb_neq in Ha. rewrite Ha.
    specialize (IH Hs). destruct (Str.split c (s ++ String c rest)); simpl in *;
      congruence.
Qed.

(** The day part of [toISOString] is the calendar day. *)
Lemma iso_day t iso :
  Date.toISOString t = Ok iso -> hd "" (Str.split "T" iso) = Date.iso_date t.
Proof.
  unfold Date.toISOString. destruct (_ <=? _); [ | discriminate].
  intros H. injection H as <-. apply split_first, iso_date_free_of_T.
Qed.

(** ** Organizing files *)

Section Organize.

Variable e : env.

(** [mkdirSync] adds directories where nothing was and changes nothing
    else. *)
Lemma mkdir_each_keeps p dirs : forall w w',
  Fs.mkdir_each p dirs w = (Ok tt, w') ->
  (forall k n, entries w !! k = Some n -> entries w' !! k = Some n)
  /\ (forall k content t,
         entries w' !! k = Some (File content t) ->
         entries w !! k = Some (File content t)).
Proof.
  induction dirs as [ | d dirs IH]; intros w w'; simpl; run.
  - intros H. injection H as <-. auto.
  - destruct (entries w !! d) as [[content t | t] | ] eqn:Hd.
    + destruct dirs; discriminate.
    + apply IH.
    + unfold Fs.clock, Fs.put. intros H. apply IH in H as [Hkeep Hfiles].
      split.
      * intros k n Hk. apply Hkeep. simpl.
        rewrite lookup_insert_ne by congruence. exact Hk.
      * intros k content t Hk. apply Hfiles in Hk. simpl in Hk.
        destruct (decide (d = k)) as [-> | Hne].
        -- rewrite lookup_insert_eq in Hk. discriminate.
        -- rewrite lookup_insert_ne in Hk by exact Hne. exact Hk.
Qed.

(** [renameSync] moves the regular file, with its text and time. *)
Lemma renameSync_moves from to w w' :
  Fs.renameSync e from to w = (Ok tt, w') ->
  exists content t,
    entries w !! Fs.abs e from = Some (File content t)
    /\ entries w' !! Fs.abs e to = Some (File content t)
    /\ (Fs.abs e from <> Fs.abs e to -> entries w' !! Fs.abs e from = None).
Proof.
  unfold Fs.renameSync. run.
  destruct (Fs.find e "rename" from w) as [[n | err | ] w1] eqn:Hfrom; try discriminate.
  apply find_ok in Hfrom as (_ & -> & ->).
  destruct (entries w !! Fs.abs e from) as [[content t | t] | ] eqn:Hnode;
    try discriminate.
  destruct (Fs.find e "rename" to w) as [[target | err | ] w1] eqn:Hto; try discriminate.
  apply find_ok in Hto as (_ & -> & ->).
  unfold Fs.dir_exists.
  destruct (_ || _); simpl; [ | discriminate].
  destruct (String.eqb_spec (Fs.abs e from) (Fs.abs e to)) as [Heq | Hne].
  - intros H. injection H as <-. exists content, t.
    rewrite <- Heq. split; [reflexivity | split; [exact Hnode | congruence]].
  - destruct (entries w !! Fs.abs e to) as [[c' t' | t'] | ];
      try discriminate; unfold Fs.remove, Fs.put; intros H; injection H as <-;
      exists content, t; simpl;
      (split; [reflexivity | split; [apply lookup_insert_eq | ]]);
      intros _; rewrite lookup_insert_ne by congruence; apply lookup_delete_eq.
Qed.

Lemma own_replace_property props k v :
  is_Some (JS.own props k) -> JS.own (JS.replace_property props k v) k = Some v.
Proof.
  induction props as [ | [k' v'] props IH]; simpl; intros [x Hx]; [discriminate | ].
  destruct (String.eqb k' k) eqn:Hk; simpl.
  - rewrite String.eqb_refl. reflexivity.
  - rewrite Hk. apply IH. eauto.
Qed.

Lemma own_add_property props k v :
  JS.own props k = None -> JS.own (JS.add_property props k v) k = Some v.
Proof.
  induction props as [ | [k' v'] props IH]; simpl.
  - intros _. rewrite String.eqb_refl. reflexivity.
  - destruct (String.eqb k' k) eqn:Hk; [discriminate | ]. intros Hnone.
    destruct (JS.array_index k) as [i | ]; [destruct (JS.array_index k') as [j | ] | ];
      try destruct (i <? j)%N; simpl;
      rewrite ?String.eqb_refl, ?Hk; auto.
Qed.

Lemma own_set_property props k v : JS.own (JS.set_property props k v) k = Some v.
Proof.
  unfold JS.set_property. destruct (JS.own props k) eqn:Hk.
  - apply own_replace_property. eauto.
  - apply own_add_property, Hk.
Qed.

Lemma push_group_lists groups key item w groups' w' :
  Tools.push_group groups key item w = (Ok groups', w') ->
  w' = w /\ exists items, JS.own groups' key = Some (JArr (items ++ [item])).
Proof.
  unfold Tools.push_group. run.
  destruct (JS.own groups key) as [[ | | | | | items | ] | ]; try discriminate.
  - intros H. injection H as <- <-. split; [reflexivity | ].
    exists items. apply own_set_property.
  - destruct (JS.inherited key); [discriminate | ].
    intros H. injection H as <- <-. split; [reflexivity | ].
    exists []. apply own_set_property.
Qed.

(** The key of a file, when the loop gets one *)
Lemma groupKey_value by_ file w key w' :
  Tools.groupKey e by_ file w = (Ok (Some key), w') ->
  w' = w
  /\ (by_ = JStr "extension"
      /\ key = Str.or_else (Str.slice 1 (Path.extname file)) "no-extension"
      \/ by_ = JStr "date"
         /\ exists n, entries w !! Fs.abs e file = Some n
                      /\ key = Date.iso_date (match n with File _ t | Dir t => t end)).
Proof.
  unfold Tools.groupKey. run.
  destruct (JS.is_str by_ "extension") eqn:Hext.
  - apply is_str_true in Hext. intros H. injection H as <- <-. auto.
  - destruct (JS.is_str by_ "date") eqn:Hdate; [ | discriminate].
    apply is_str_true in Hdate. unfold Fs.statSync_mtime. run.
    destruct (Fs.find e "stat" file w) as [[n | err | ] w1] eqn:Hfind; try discriminate.
    apply find_ok in Hfind as (_ & -> & ->).
    destruct (entries w !! Fs.abs e file) as [n | ] eqn:Hn; [ | discriminate].
    assert (Hstat : (match n with File _ t | Dir t => ret t end) w
                    = (Ok (match n with File _ t | Dir t => t end), w))
      by (destruct n; reflexivity).
    unfold ret in Hstat. rewrite Hstat.
    destruct (Date.toISOString _) as [iso | err | ] eqn:Hiso; try discriminate.
    intros H. injection H as <- <-. split; [reflexivity | right].
    split; [exact Hdate | ]. exists n. split; [reflexivity | ].
    apply iso_day, Hiso.
Qed.

(** One turn of the loop files its file. *)
Lemma organize_one_files by_ groups file w groups' w' :
  Tools.organize_one e by_ groups file w = (Ok groups', w') ->
  filed e by_ file w groups' w'.
Proof.
  unfold Tools.organize_one, bind.
  destruct (Tools.groupKey e by_ file w) as [[[key | ] | err | ] w0] eqn:Hkey;
    try discriminate.
  apply groupKey_value in Hkey as (-> & Hkey).
  fold (destination e key file).
  set (targetDir := Path.join [Tools.workingDir e; key]).
  destruct (Fs.existsSync e targetDir w) as [[found | err | ] w0] eqn:Hfound;
    try discriminate.
  assert (w0 = w) as -> by (unfold Fs.existsSync in Hfound; congruence).
  destruct ((if negb found then Fs.mkdirSync_recursive e targetDir else ret tt) w)
    as [[[] | err | ] w1] eqn:Hmkdir; try discriminate.
  assert (Hkeep : (forall k n, entries w !! k = Some n -> entries w1 !! k = Some n)
                  /\ (forall k content t,
                         entries w1 !! k = Some (File content t) ->
                         entries w !! k = Some (File content t))).
  { destruct (negb found).
    - unfold Fs.mkdirSync_recursive in Hmkdir. eapply mkdir_each_keeps, Hmkdir.
    - unfold ret in Hmkdir. injection Hmkdir as <-. auto. }
  destruct Hkeep as [Hkeep Hfiles].
  destruct (Fs.renameSync e file (destination e key file) w1)
    as [[[] | err | ] w2] eqn:Hrename; try discriminate.
  apply renameSync_moves in Hrename as (content & t & Hsrc & Hdst & Hgone).
  intros Hpush. apply push_group_lists in Hpush as (-> & items & Hitems).
  exists key, content, t. apply Hfiles in Hsrc.
  split; [exact Hsrc | ]. split.
  - destruct Hkey as [Hext | (Hdate & n & Hn & Hday)]; [left; exact Hext | right].
    split; [exact Hdate | ]. rewrite Hsrc in Hn. injection Hn as <-. exact Hday.
  - split; [exact Hdst | ]. split; [exact Hgone | eauto].
Qed.


(** What [glob.sync] lists: the visible regular files below the
    directory, and only them. *)
Lemma glob_files_lists dir w files w' :
  Fs.glob_files e dir w = (Ok files, w') ->
  w' = w /\ forall f, f ∈ files <-> visible_file e dir w f.
Proof.
  unfold Fs.glob_files. destruct (existsb Fs.glob_magic _); [discriminate | ].
  intros H. injection H as <- <-. split; [reflexivity | ].
  intros f. rewrite list_elem_of_omap. split.
  - intros ([p n] & Hin & Hf). apply elem_of_map_to_list in Hin.
    destruct n as [content t | t]; cbn beta iota in Hf; [ | discriminate].
    destruct (Path.below _ _) as [[ | seg rel] | ] eqn:Hbelow; try discriminate.
    destruct (Fs.hidden seg || existsb Fs.hidden rel) eqn:Hhidden; [discriminate | ].
    injection Hf as <-. exists p, content, t, seg, rel.
    split; [exact Hin | split; [exact Hbelow | split; [exact Hhidden | reflexivity]]].
  - intros (p & content & t & seg & rel & Hp & Hbelow & Hhidden & ->).
    exists (p, File content t). split; [apply elem_of_map_to_list, Hp | ].
    cbn beta iota. rewrite Hbelow. simpl in Hhidden. rewrite Hhidden. reflexivity.
Qed.

End Organize.




(** By date, each file goes under the UTC day of its time. *)
Example organize_by_date :
  fst (Tools.organize_files Sample.deployment (JObj [("by", JStr "date")]) Sample.mixed_disk)
  = Ok (JObj [("2024-02-29", JArr [JStr "2024-02-29/A.TXT"]);
              ("1970-01-01", JArr [JStr "1970-01-01/README"])]).
Proof. vm_compute. reflexivity. Qed.

(** * Further properties of the code *)

(** ** Resolved paths *)

Lemma prefix_app s t : String.prefix s (s ++ t) = true.
Proof.
  induction s as [ | a s IH]; simpl; [destruct t; reflexivity | ].
  destruct (ascii_dec a a); [exact IH | congruence].
Qed.

Lemma string_app_assoc (s t u : string) : (s ++ t) ++ u = s ++ (t ++ u).
Proof.
  induction s as [ | a s IH]; [reflexivity | ].
  change (String a ((s ++ t) ++ u) = String a (s ++ t ++ u)). f_equal. exact IH.
Qed.

Lemma split_free c s : Forall (free_of c) (Str.split c s).
Proof.
  induction s as [ | a s IH]; simpl.
  - constructor; [exact I | constructor].
  - destruct (Ascii.eqb_spec a c) as [-> | Hne].
    + constructor; [exact I | exact IH].
    + destruct (Str.split c s) as [ | h t].
      * constructor; [simpl; auto | constructor].
      * inversion IH; subst. constructor; [simpl; auto | assumption].
Qed.

Lemma split_whole c s : free_of c s -> Str.split c s = [s].
Proof.
  induction s as [ | a s IH]; simpl; [reflexivity | ].
  intros [Ha Hs]. apply Ascii.eqb_neq in Ha. rewrite Ha, (IH Hs). reflexivity.
Qed.

Lemma split_app c s rest :
  free_of c s -> Str.split c (s ++ String c rest) = s :: Str.split c rest.
Proof.
  induction s as [ | a s IH]; simpl.
  - intros _. rewrite Ascii.eqb_refl. reflexivity.
  - intros [Ha Hs]. apply Ascii.eqb_neq in Ha. rewrite Ha, (IH Hs). reflexivity.
Qed.

(** Splitting what was joined gives the parts back. *)
Lemma split_join c part parts :
  Forall (free_of c) (part :: parts) ->
  Str.split c (Str.join (String c "") (part :: parts)) = part :: parts.
Proof.
  revert part. induction parts as [ | q parts IH]; intros part Hfree.
  - simpl. apply split_whole. inversion Hfree; assumption.
  - inversion Hfree as [ | ? ? Hp Hrest]; subst.
    change (Str.join (String c "") (part :: q :: parts))
      with (part ++ String c (Str.join (String c "") (q :: parts))).
    rewrite (split_app _ _ _ Hp), (IH _ Hrest). reflexivity.
Qed.

Lemma split_join_then c part parts rest :
  Forall (free_of c) (part :: parts) ->
  Str.split c (Str.join (String c "") (part :: parts) ++ String c rest)
  = ((part :: parts) ++ Str.split c rest)%list.
Proof.
  revert part. induction parts as [ | q parts IH]; intros part Hfree.
  - simpl Str.join. rewrite split_app by (inversion Hfree; assumption). reflexivity.
  - inversion Hfree as [ | ? ? Hp Hrest]; subst.
    change (Str.join (String c "") (part :: q :: parts))
      with (part ++ String c "" ++ Str.join (String c "") (q :: parts)).
    rewrite string_app_assoc.
    change ((String c "" ++ Str.join (String c "") (q :: parts)) ++ String c rest)
      with (String c (Str.join (String c "") (q :: parts) ++ String c rest)).
    rewrite (split_app _ _ _ Hp), (IH _ Hrest). reflexivity.
Qed.

Lemma clean_not_empty L : Forall clean L -> filter (fun seg : string => seg <> "") L = L.
Proof.
  induction 1 as [ | seg L [Hne _] _ IH]; [reflexivity | ].
  rewrite filter_cons_True by exact Hne. f_equal. exact IH.
Qed.

Lemma clean_free L : Forall clean L -> Forall (free_of "/") L.
Proof. intros HL. eapply Forall_impl; [exact HL | ]. intros seg (_ & _ & _ & H). exact H. Qed.

Lemma split_separator c s : Str.split c (String c s) = "" :: Str.split c s.
Proof. simpl. rewrite Ascii.eqb_refl. reflexivity. Qed.

(** The components of a path written from clean components are those
    components. *)
Lemma segments_of_segments L :
  Forall clean L -> Path.segments (Fs.of_segments L) = L.
Proof.
  intros HL. unfold Path.segments, Fs.of_segments.
  change ("/" ++ Str.join "/" L) with (String "/" (Str.join "/" L)).
  rewrite split_separator, filter_cons_False by (intros H; apply H; reflexivity).
  destruct L as [ | part parts]; [reflexivity | ].
  rewrite (split_join "/" part parts) by (apply clean_free, HL).
  apply clean_not_empty, HL.
Qed.

(** With a separator behind it, too. *)
Lemma segments_trailing L :
  Forall clean L -> Path.segments (Fs.of_segments L ++ "/") = L.
Proof.
  intros HL. unfold Path.segments, Fs.of_segments.
  destruct L as [ | part parts]; [reflexivity | ].
  change (("/" ++ Str.join "/" (part :: parts)) ++ "/")
    with (String "/" (Str.join "/" (part :: parts) ++ "/")).
  rewrite split_separator, filter_cons_False by (intros H; apply H; reflexivity).
  rewrite (split_join_then "/" part parts "") by (apply clean_free, HL).
  rewrite filter_app, clean_not_empty by exact HL.
  change (Str.split "/" "") with [""].
  rewrite filter_cons_False by (intros H; apply H; reflexivity).
  rewrite filter_nil. apply app_nil_r.
Qed.

(** [normalizeString] leaves clean components only. *)
Lemma normalizeSegments_clean segs : forall acc,
  Forall (free_of "/") segs -> Forall clean acc ->
  Forall clean (Path.normalizeSegments false acc segs).
Proof.
  induction segs as [ | seg segs IH]; intros acc Hsegs Hacc; simpl.
  - apply Forall_rev, Hacc.
  - inversion Hsegs as [ | ? ? Hseg Hrest]; subst.
    destruct (String.eqb_spec seg ""); [apply IH; assumption | ].
    destruct (String.eqb_spec seg "."); [apply IH; assumption | ]. simpl.
    destruct (String.eqb_spec seg "..").
    + destruct acc as [ | top below]; [apply IH; [assumption | constructor] | ].
      inversion Hacc; subst.
      destruct (String.eqb top ".."); apply IH; assumption.
    + apply IH; [assumption | ]. constructor; [ | assumption]. repeat split; assumption.
Qed.

(** Empty components do not count. *)
Lemma normalizeSegments_skips allow segs : forall acc,
  Path.normalizeSegments allow acc segs
  = Path.normalizeSegments allow acc (filter (fun seg : string => seg <> "") segs).
Proof.
  induction segs as [ | seg segs IH]; intros acc; [reflexivity | ].
  destruct (decide (seg = "")) as [-> | Hne].
  - rewrite filter_cons_False by (intros H; apply H; reflexivity). simpl. apply IH.
  - rewrite filter_cons_True by exact Hne. simpl.
    destruct (_ || _); [apply IH | ].
    destruct (String.eqb seg ".."); [ | apply IH].
    destruct acc as [ | top below]; [apply IH | ].
    destruct (String.eqb top ".."); apply IH.
Qed.

(** Clean components are kept as they are. *)
Lemma normalizeSegments_id allow segs : forall acc,
  Forall clean segs -> Path.normalizeSegments allow acc segs = (rev acc ++ segs)%list.
Proof.
  induction segs as [ | seg segs IH]; intros acc Hsegs; simpl.
  - symmetry. apply app_nil_r.
  - inversion Hsegs as [ | ? ? (He & Hd & Hdd & _) Hrest]; subst.
    apply String.eqb_neq in He, Hd, Hdd. rewrite He, Hd, Hdd. simpl.
    rewrite (IH _ Hrest). simpl. rewrite <- app_assoc. reflexivity.
Qed.

Lemma resolve_loop_absolute cwd l : forall acc,
  Path.isAbsolute cwd = true -> snd (Path.resolve_loop (l ++ [cwd])%list acc) = true.
Proof.
  induction l as [ | p l IH]; intros acc Habs; simpl.
  - destruct (String.eqb_spec cwd "") as [-> | _]; [discriminate | ].
    rewrite Habs. reflexivity.
  - destruct (String.eqb p ""); [apply IH, Habs | ].
    destruct (Path.isAbsolute p); [reflexivity | apply IH, Habs].
Qed.

(** In a process with an absolute directory, [path.resolve] returns the
    root followed by clean components, one separator between them. *)
Lemma resolve_canonical cwd args :
  Path.isAbsolute cwd = true ->
  exists L, Forall clean L /\ Path.resolve cwd args = Fs.of_segments L.
Proof.
  intros Habs. unfold Path.resolve.
  pose proof (resolve_loop_absolute cwd (rev args) "" Habs) as Hloop.
  destruct (Path.resolve_loop (rev args ++ [cwd])%list "") as [resolvedPath absolute].
  simpl in Hloop. subst absolute. simpl negb. cbv iota.
  exists (Path.normalizeSegments false [] (Str.split "/" resolvedPath)).
  split; [ | reflexivity].
  apply normalizeSegments_clean; [apply split_free | constructor].
Qed.

Lemma of_segments_absolute L : Path.isAbsolute (Fs.of_segments L) = true.
Proof.
  unfold Path.isAbsolute, Str.startsWith, Fs.of_segments.
  change ("/" ++ Str.join "/" L) with (String "/" (Str.join "/" L)). simpl.
  destruct (Str.join "/" L); reflexivity.
Qed.

(** Such a path resolves to itself, whatever stands before it. *)
Lemma resolve_fixed cwd before L :
  Forall clean L ->
  Path.resolve cwd (before ++ [Fs.of_segments L])%list = Fs.of_segments L.
Proof.
  intros HL. unfold Path.resolve. rewrite rev_app_distr. simpl.
  rewrite of_segments_absolute. simpl negb.
  unfold Path.normalizeString.
  change (Fs.of_segments L ++ "/" ++ "") with (Fs.of_segments L ++ "/").
  rewrite normalizeSegments_skips.
  fold (Path.segments (Fs.of_segments L ++ "/")).
  rewrite (segments_trailing _ HL), (normalizeSegments_id _ _ _ HL). reflexivity.
Qed.

Lemma string_app_empty (s : string) : s ++ "" = s.
Proof.
  induction s as [ | a s IH]; [reflexivity | ].
  change (String a (s ++ "") = String a s). f_equal. exact IH.
Qed.

Lemma join_app sep parts : forall part rest,
  Str.join sep ((part :: parts) ++ rest)%list
  = Str.join sep (part :: parts)
    ++ match rest with [] => "" | _ => sep ++ Str.join sep rest end.
Proof.
  induction parts as [ | q parts IH]; intros part rest.
  - destruct rest; simpl; [symmetry; apply string_app_empty | reflexivity].
  - change (Str.join sep ((part :: q :: parts) ++ rest)%list)
      with (part ++ sep ++ Str.join sep ((q :: parts) ++ rest)%list).
    change (Str.join sep (part :: q :: parts))
      with (part ++ sep ++ Str.join sep (q :: parts)).
    rewrite IH, !string_app_assoc. reflexivity.
Qed.

Lemma below_app root : forall segs rest,
  Path.below root segs = Some rest -> segs = (root ++ rest)%list.
Proof.
  induction root as [ | r root IH]; intros segs rest; simpl.
  - intros H. injection H as <-. reflexivity.
  - destruct segs as [ | s segs]; [discriminate | ].
    destruct (String.eqb_spec r s) as [<- | _]; [ | discriminate].
    intros H. rewrite (IH _ _ H). reflexivity.
Qed.

(** The text of a directory starts the text of whatever lies below it. *)
Lemma of_segments_prefix root rest :
  String.prefix (Fs.of_segments root) (Fs.of_segments (root ++ rest)%list) = true.
Proof.
  destruct root as [ | part parts].
  - apply (of_segments_absolute rest).
  - unfold Fs.of_segments. rewrite join_app, <- string_app_assoc. apply prefix_app.
Qed.

(** X1.  Whatever resolves to the root or below it is accepted: the check
    refuses no path of the root's own tree. *)
Theorem ensureSafePath_accepts_within (e : env) (f : string) (w : world) :
  Path.isAbsolute (cwd e) = true ->
  Path.within (Path.resolve (cwd e) [Tools.workingDir e])
              (Path.resolve (cwd e) [Tools.workingDir e; f]) = true ->
  Tools.ensureSafePath e (JStr f) w
  = (Ok (Path.resolve (cwd e) [Tools.workingDir e; f]), w).
Proof.
  intros Habs Hin. unfold Tools.ensureSafePath, Str.startsWith.
  destruct (resolve_canonical (cwd e) [Tools.workingDir e] Habs) as (R & HR & HeqR).
  destruct (resolve_canonical (cwd e) [Tools.workingDir e; f] Habs) as (F & HF & HeqF).
  rewrite HeqR, HeqF in *. unfold Path.within in Hin. apply bool_decide_eq_true in Hin as [rest Hrest].
  rewrite (segments_of_segments _ HR), (segments_of_segments _ HF) in Hrest.
  apply below_app in Hrest as ->. rewrite of_segments_prefix. reflexivity.
Qed.

Lemma ensureSafePath_accepts_within_witness :
  Tools.ensureSafePath Sample.deployment (JStr "logs/../a.txt") Sample.disk
  = (Ok "/data/a.txt", Sample.disk).
Proof.
  apply (ensureSafePath_accepts_within Sample.deployment "logs/../a.txt" Sample.disk);
    vm_compute; reflexivity.
Defined.

(** X2.  What [ensureSafePath] returns is a path in normal form: the file
    system reads it as it stands, and the check accepts it again and
    returns it unchanged. *)
Theorem ensureSafePath_stable (e : env) (f p : string) (w w' : world) :
  Path.isAbsolute (cwd e) = true ->
  Tools.ensureSafePath e (JStr f) w = (Ok p, w') ->
  Fs.abs e p = p /\ Tools.ensureSafePath e (JStr p) w = (Ok p, w).
Proof.
  intros Habs Hok.
  apply ensureSafePath_returns in Hok as (f' & Hf & -> & -> & Hstarts).
  injection Hf as <-.
  destruct (resolve_canonical (cwd e) [Tools.workingDir e; f] Habs) as (F & HF & HeqF).
  rewrite HeqF in *.
  assert (Hfix : forall before,
             Path.resolve (cwd e) (before ++ [Fs.of_segments F])%list = Fs.of_segments F)
    by (intros before; apply resolve_fixed, HF).
  split; [exact (Hfix []) | ].
  unfold Tools.ensureSafePath.
  pose proof (Hfix [Tools.workingDir e]) as Hagain. simpl in Hagain.
  rewrite Hagain, Hstarts. reflexivity.
Qed.

Lemma ensureSafePath_stable_witness :
  Fs.abs Sample.deployment "/data/a.txt" = "/data/a.txt"
  /\ Tools.ensureSafePath Sample.deployment (JStr "/data/a.txt") Sample.disk
     = (Ok "/data/a.txt", Sample.disk).
Proof.
  apply (ensureSafePath_stable Sample.deployment "logs/../a.txt" "/data/a.txt"
           Sample.disk Sample.disk); reflexivity.
Defined.

(** ** Tools that only read *)

Section ReadOnly.

Variable e : env.

Lemma read_only_ret {A} (a : A) : read_only (ret a).
Proof. intros w. reflexivity. Qed.

Lemma read_only_throw {A} err : read_only (@throw A err).
Proof. intros w. reflexivity. Qed.

Lemma read_only_lift {A} (r : result A) : read_only (lift r).
Proof. intros w. reflexivity. Qed.

Lemma read_only_bind {A B} (m : M A) (k : A -> M B) :
  read_only m -> (forall a, read_only (k a)) -> read_only (bind m k).
Proof.
  intros Hm Hk w. unfold bind. specialize (Hm w).
  destruct (m w) as [[a | err | ] w1]; simpl in Hm; subst; [apply Hk | | ]; reflexivity.
Qed.

Lemma read_only_try_catch {A} (body : M A) (handler : exn -> M A) :
  read_only body -> (forall err, read_only (handler err)) ->
  read_only (try_catch body handler).
Proof.
  intros Hm Hk w. unfold try_catch. specialize (Hm w).
  destruct (body w) as [[a | err | ] w1]; simpl in Hm; subst; [ | apply Hk | ]; reflexivity.
Qed.

Lemma read_only_find call p : read_only (Fs.find e call p).
Proof. intros w. unfold Fs.find. destruct (existsb _ _); reflexivity. Qed.

Lemma read_only_existsSync p : read_only (Fs.existsSync e p).
Proof. intros w. reflexivity. Qed.

Lemma read_only_readFileSync p : read_only (Fs.readFileSync e p).
Proof.
  apply read_only_bind; [apply read_only_find | ].
  intros [[content t | t] | ]; auto using @read_only_ret, @read_only_throw.
Qed.

Lemma read_only_statSync p : read_only (Fs.statSync_mtime e p).
Proof.
  apply read_only_bind; [apply read_only_find | ].
  intros [[content t | t] | ]; auto using @read_only_ret, @read_only_throw.
Qed.

Lemma read_only_glob dir : read_only (Fs.glob_files e dir).
Proof. intros w. unfold Fs.glob_files. destruct (existsb _ _); reflexivity. Qed.

Lemma read_only_ensureSafePath filename : read_only (Tools.ensureSafePath e filename).
Proof.
  intros w. unfold Tools.ensureSafePath.
  destruct filename; try reflexivity. destruct (negb _); reflexivity.
Qed.

Lemma read_only_filterM keep files :
  (forall f, read_only (keep f)) -> read_only (Tools.filterM keep files).
Proof.
  intros Hkeep. induction files as [ | f files IH]; simpl; [apply read_only_ret | ].
  apply read_only_bind; [apply Hkeep | intros k].
  apply read_only_bind; [exact IH | intros kept; apply read_only_ret].
Qed.

(** X6.  [analyze_logs] never changes the file system, whatever its arguments
    and however it ends. *)
Theorem analyze_logs_read_only (args : jsval) : read_only (Tools.analyze_logs e args).
Proof.
  unfold Tools.analyze_logs.
  apply read_only_bind; [apply read_only_lift | intros pattern].
  apply read_only_bind; [apply read_only_lift | intros filename].
  apply read_only_bind; [apply read_only_ensureSafePath | intros filePath].
  apply read_only_bind; [apply read_only_existsSync | intros found].
  destruct (negb found); [apply read_only_throw | ].
  apply read_only_bind; [apply read_only_readFileSync | intros content].
  apply read_only_bind; [apply read_only_lift | intros regex]. apply read_only_ret.
Qed.

(** X7.  [search_files] never changes the file system either, with any
    selector: run again on the same arguments it returns the same
    answer. *)
Theorem search_files_read_only (args : jsval) :
  read_only (Tools.search_files e args)
  /\ forall w, Tools.search_files e args (snd (Tools.search_files e args w))
               = Tools.search_files e args w.
Proof.
  assert (Hro : read_only (Tools.search_files e args)).
  { unfold Tools.search_files, Tools.param_default.
    apply read_only_bind; [apply read_only_lift | intros query].
    apply read_only_bind;
      [apply read_only_bind; [apply read_only_lift | intros v; apply read_only_ret] | ].
    intros by_.
    apply read_only_bind; [apply read_only_glob | intros files].
    apply read_only_bind; [ | intros results; apply read_only_ret].
    destruct (JS.is_str by_ "name"); [ | destruct (JS.is_str by_ "content");
                                         [ | destruct (JS.is_str by_ "date") ] ].
    - apply read_only_filterM. intros f.
      apply read_only_bind; [apply read_only_lift | intros q; apply read_only_ret].
    - apply read_only_filterM. intros f.
      apply read_only_try_catch; [ | intros err; apply read_only_ret].
      apply read_only_bind; [apply read_only_readFileSync | intros content].
      apply read_only_bind; [apply read_only_lift | intros q; apply read_only_ret].
    - apply read_only_filterM. intros f.
      apply read_only_bind; [apply read_only_statSync | intros mtime].
      apply read_only_bind; [apply read_only_lift | intros iso].
      apply read_only_bind; [apply read_only_lift | intros q; apply read_only_ret].
    - apply read_only_ret. }
  split; [exact Hro | ].
  intros w. rewrite (Hro w). reflexivity.
Qed.

End ReadOnly.

(** ** Searching by name and by content *)

Section Search.

Variable e : env.

Lemma filterM_pure keep (p : string -> bool) files w :
  (forall f, keep f w = (Ok (p f), w)) ->
  Tools.filterM keep files w = (Ok (List.filter p files), w).
Proof.
  intros Hkeep. induction files as [ | f files IH]; simpl; [reflexivity | ].
  unfold bind. rewrite Hkeep, IH. unfold ret. destruct (p f); reflexivity.
Qed.

(** X8.  A search by name (the default selector) returns, relative to the
    root, exactly the visible regular files below the root whose base
    name contains the query: the names of the directories on the way do
    not count. *)
Theorem search_by_name (args : jsval) (q : string) (by_ : jsval) (w : world) :
  JS.get args "query" = Ok (JStr q) ->
  JS.get args "by" = Ok by_ ->
  by_ = JUndefined \/ by_ = JStr "name" ->
  existsb Fs.glob_magic (list_ascii_of_string (Tools.workingDir e)) = false ->
  exists names,
    Tools.search_files e args w = (Ok (JArr (map JStr names)), w)
    /\ forall x, In x names <->
                 exists f, visible_file e (Tools.workingDir e) w f
                           /\ Str.includes (Path.basename f) q = true
                           /\ x = Path.relative (cwd e) (Tools.workingDir e) f.
Proof.
  intros Hq Hb Hby Hplain.
  destruct (Fs.glob_files e (Tools.workingDir e) w) as [[files | err | ] w0] eqn:Hglob;
    try (unfold Fs.glob_files in Hglob; rewrite Hplain in Hglob; discriminate).
  destruct (glob_files_lists _ _ _ _ _ Hglob) as [-> Hlisted].
  exists (map (fun f => Path.relative (cwd e) (Tools.workingDir e) f)
              (List.filter (fun f => Str.includes (Path.basename f) q) files)).
  split.
  - unfold Tools.search_files, Tools.param_default. run.
    rewrite (get_param _ _ _ _ Hq), (get_param _ _ _ _ Hb).
    assert (Hname : JS.is_str (match by_ with JUndefined => JStr "name" | _ => by_ end)
                              "name" = true) by (destruct Hby; subst; reflexivity).
    rewrite Hglob, Hname.
    rewrite (filterM_pure _ (fun f => Str.includes (Path.basename f) q)) by reflexivity.
    rewrite map_map. reflexivity.
  - intros x. rewrite in_map_iff. split.
    + intros (f & <- & Hin). apply filter_In in Hin as [Hin Hmatch].
      exists f. split; [apply Hlisted, list_elem_of_In, Hin | auto].
    + intros (f & Hvisible & Hmatch & ->). exists f. split; [reflexivity | ].
      apply filter_In. split; [apply list_elem_of_In, Hlisted, Hvisible | exact Hmatch].
Qed.

(** X9.  A search by content never fails with an error, and what goes
    wrong at one file only leaves that file out: the answer is, in the
    order of the listing and relative to the root, every listed file
    that can be read and whose text contains the query.  A file whose
    read throws is skipped and the files after it are still examined;
    when the query cannot be converted to a text, every file is
    skipped and the answer is empty. *)
Theorem content_search_skips_failures (args query : jsval) (w : world) :
  JS.get args "by" = Ok (JStr "content") ->
  JS.get args "query" = Ok query ->
  JS.ToString query <> Unsupported ->
  existsb Fs.glob_magic (list_ascii_of_string (Tools.workingDir e)) = false ->
  exists files,
    Fs.glob_files e (Tools.workingDir e) w = (Ok files, w)
    /\ (forall f, f ∈ files <-> visible_file e (Tools.workingDir e) w f)
    /\ Tools.search_files e args w
       = (Ok (JArr (map (fun f => JStr (Path.relative (cwd e) (Tools.workingDir e) f))
                        (List.filter (found_in e w query) files))), w).
Proof.
  intros Hb Hq Hconv Hplain.
  destruct (Fs.glob_files e (Tools.workingDir e) w) as [[files | err | ] w0] eqn:Hglob;
    try (unfold Fs.glob_files in Hglob; rewrite Hplain in Hglob; discriminate).
  destruct (glob_files_lists _ _ _ _ _ Hglob) as [-> Hlisted].
  exists files. split; [reflexivity | ]. split; [exact Hlisted | ].
  unfold Tools.search_files, Tools.param_default. run.
  rewrite (get_param _ _ _ _ Hq), (get_param _ _ _ _ Hb).
  cbn [JS.is_str String.eqb Ascii.eqb Bool.eqb].
  rewrite Hglob.
  rewrite (filterM_pure _ (found_in e w query)); [reflexivity | ].
  intros f. unfold found_in, readable, Fs.readFileSync, Fs.find, bind, ret, throw.
  destruct (existsb (Fs.is_file w) (Fs.ancestors (Fs.abs e f))); [reflexivity | ].
  destruct (entries w !! Fs.abs e f) as [[content t | t] | ]; try reflexivity.
  destruct (JS.ToString query) as [q | err | ]; [reflexivity | reflexivity | congruence].
Qed.

End Search.

Lemma search_by_name_witness :
  exists names,
    Tools.search_files Sample.deployment (JObj [("query", JStr "a")]) Sample.disk
    = (Ok (JArr (map JStr names)), Sample.disk)
    /\ forall x, In x names <->
                 exists f, visible_file Sample.deployment
                             (Tools.workingDir Sample.deployment) Sample.disk f
                           /\ Str.includes (Path.basename f) "a" = true
                           /\ x = Path.relative "/srv"
                                    (Tools.workingDir Sample.deployment) f.
Proof.
  apply (search_by_name Sample.deployment (JObj [("query", JStr "a")]) "a" JUndefined);
    try reflexivity. left. reflexivity.
Defined.

Lemma content_search_skips_failures_witness :
  (exists files,
      Fs.glob_files Sample.deployment (Tools.workingDir Sample.deployment) More4.blocked_disk
      = (Ok files, More4.blocked_disk)
      /\ (forall f, f ∈ files
                    <-> visible_file Sample.deployment (Tools.workingDir Sample.deployment)
                          More4.blocked_disk f)
      /\ Tools.search_files Sample.deployment
           (JObj [("query", JStr "http"); ("by", JStr "content")]) More4.blocked_disk
         = (Ok (JArr (map (fun f => JStr (Path.relative "/srv"
                                            (Tools.workingDir Sample.deployment) f))
                          (List.filter (found_in Sample.deployment More4.blocked_disk
                                          (JStr "http")) files))),
            More4.blocked_disk))
  /\ Tools.search_files Sample.deployment
       (JObj [("query", JStr "http"); ("by", JStr "content")]) More4.blocked_disk
     = (Ok (JArr [JStr "a.txt"; JStr "z.txt"]), More4.blocked_disk)
  /\ Tools.search_files Sample.deployment
       (JObj [("query", JObj [("toString", JNull)]); ("by", JStr "content")])
       More4.blocked_disk
     = (Ok (JArr []), More4.blocked_disk)
  /\ fst (Tools.search_files Sample.deployment
            (JObj [("query", JObj [("toString", JNull)]); ("by", JStr "name")])
            More4.blocked_disk)
     = Fail (TypeError "Cannot convert object to primitive value").
Proof.
  split; [ | split; [ | split]]; [ | vm_compute; reflexivity ..].
  apply (content_search_skips_failures Sample.deployment
           (JObj [("query", JStr "http"); ("by", JStr "content")]) (JStr "http"));
    [reflexivity | reflexivity | discriminate | reflexivity].
Defined.

(** ** Tools that take a file name *)

Section NamedFile.

Variable e : env.

(** X4.  A name that the check refuses stops each tool that takes one: the
    tool ends with the error of the check and the file system is as it
    was. *)
Theorem refused_name_stops_tools (args filename pattern search replace : jsval)
        (err : exn) (w : world) :
  JS.get args "filename" = Ok filename ->
  JS.get args "pattern" = Ok pattern ->
  JS.get args "search" = Ok search ->
  JS.get args "replace" = Ok replace ->
  Tools.ensureSafePath e filename w = (Fail err, w) ->
  Tools.analyze_logs e args w = (Fail err, w)
  /\ Tools.replace_text e args w = (Fail err, w)
  /\ (Tools.allowDelete e = true -> Tools.delete_file e args w = (Fail err, w)).
Proof.
  intros Hf Hp Hs Hr Hcheck.
  unfold Tools.analyze_logs, Tools.replace_text, Tools.delete_file. run.
  rewrite (get_param "pattern" _ _ _ Hp), (get_param "pattern" _ _ _ Hf),
    (get_param "search" _ _ _ Hs), (get_param "search" _ _ _ Hr),
    (get_param "search" _ _ _ Hf), (get_param "filename" _ _ _ Hf), Hcheck.
  split; [reflexivity | split; [reflexivity | ]].
  intros ->. cbn [negb]. rewrite Hcheck. reflexivity.
Qed.

(** The two ways in which the check refuses *)
Lemma ensureSafePath_refuses_value filename w :
  (forall f, filename <> JStr f) ->
  Tools.ensureSafePath e filename w
  = (Fail (Tools.invalid_arg "paths[1]" filename), w).
Proof. intros Hf. destruct filename; try reflexivity. exfalso. eapply Hf. reflexivity. Qed.

(** X5.  Where the name is accepted and nothing is stored under it, each tool
    ends with its own error and changes nothing. *)
Theorem missing_file_errors (args pattern search replace : jsval) (f p : string) (w : world) :
  JS.get args "filename" = Ok (JStr f) ->
  JS.get args "pattern" = Ok pattern ->
  JS.get args "search" = Ok search ->
  JS.get args "replace" = Ok replace ->
  Tools.ensureSafePath e (JStr f) w = (Ok p, w) ->
  Fs.existsSync e p w = (Ok false, w) ->
  Tools.analyze_logs e args w = (Fail (Error "Log file not found"), w)
  /\ Tools.replace_text e args w = (Fail (Error "File not found"), w)
  /\ (Tools.allowDelete e = true ->
      Tools.delete_file e args w = (Fail (Error "File not found"), w)).
Proof.
  intros Hf Hp Hs Hr Hcheck Hmissing.
  unfold Tools.analyze_logs, Tools.replace_text, Tools.delete_file. run.
  rewrite (get_param "pattern" _ _ _ Hp), (get_param "pattern" _ _ _ Hf),
    (get_param "search" _ _ _ Hs), (get_param "search" _ _ _ Hr),
    (get_param "search" _ _ _ Hf), (get_param "filename" _ _ _ Hf), Hcheck, Hmissing.
  split; [reflexivity | split; [reflexivity | ]].
  intros ->. cbn [negb]. rewrite Hcheck, Hmissing. reflexivity.
Qed.

(** X11.  With deletion enabled, [delete_file] on a stored file removes that
    entry and no other; the same call again then finds no file. *)
Theorem delete_file_removes (args : jsval) (f p content : string) (t : Z) (w : world) :
  Tools.allowDelete e = true ->
  JS.get args "filename" = Ok (JStr f) ->
  Tools.ensureSafePath e (JStr f) w = (Ok p, w) ->
  stored e w p content t ->
  exists w',
    Tools.delete_file e args w = (Ok (JStr ("File deleted: " ++ p)), w')
    /\ entries w' = delete (Fs.abs e p) (entries w)
    /\ Fs.existsSync e p w' = (Ok false, w')
    /\ Tools.delete_file e args w' = (Fail (Error "File not found"), w').
Proof.
  intros Hon Hf Hcheck Hstored.
  exists (World (delete (Fs.abs e p) (entries w)) (now w)).
  assert (Hgone : Fs.existsSync e p (World (delete (Fs.abs e p) (entries w)) (now w))
                  = (Ok false, World (delete (Fs.abs e p) (entries w)) (now w))).
  { unfold Fs.existsSync. cbn [entries]. rewrite lookup_delete_eq.
    rewrite andb_false_r. reflexivity. }
  split; [ | split; [reflexivity | split; [exact Hgone | ]]].
  - unfold Tools.delete_file. run.
    rewrite (get_param "filename" _ _ _ Hf), Hon. cbn [negb].
    rewrite Hcheck, (stored_exists _ _ _ _ _ Hstored).
    cbn [negb]. unfold Fs.unlinkSync. run.
    destruct Hstored as [Hfind _]. rewrite (find_any_call _ _ "unlink" _ _ _ _ Hfind).
    reflexivity.
  - unfold Tools.delete_file. run.
    rewrite (get_param "filename" _ _ _ Hf), Hon. cbn [negb].
    rewrite (ensureSafePath_any_world _ _ _ _ _ Hcheck), Hgone. reflexivity.
Qed.

End NamedFile.

Lemma refused_name_stops_tools_witness :
  Tools.replace_text Sample.deployment
    (JObj [("filename", JStr "../../etc/passwd"); ("pattern", JStr "root");
           ("search", JStr "root"); ("replace", JStr "toor")]) Sample.disk
  = (Fail (Error "Attempt to access path outside WORKING_DIR"), Sample.disk).
Proof.
  apply (refused_name_stops_tools Sample.deployment _ (JStr "../../etc/passwd")
           (JStr "root") (JStr "root") (JStr "toor")); reflexivity.
Defined.

Lemma missing_file_errors_witness :
  Tools.analyze_logs Sample.deployment
    (JObj [("filename", JStr "none.log"); ("pattern", JStr "x");
           ("search", JStr "x"); ("replace", JStr "y")]) Sample.disk
  = (Fail (Error "Log file not found"), Sample.disk).
Proof.
  apply (missing_file_errors Sample.deployment _ (JStr "x") (JStr "x") (JStr "y")
           "none.log" "/data/none.log"); vm_compute; reflexivity.
Defined.

Lemma delete_file_removes_witness :
  exists w',
    Tools.delete_file (Sample.with_delete true) (JObj [("filename", JStr "a.txt")]) Sample.disk
    = (Ok (JStr "File deleted: /data/a.txt"), w')
    /\ entries w' = delete (Fs.abs (Sample.with_delete true) "/data/a.txt") (entries Sample.disk)
    /\ Fs.existsSync (Sample.with_delete true) "/data/a.txt" w' = (Ok false, w')
    /\ Tools.delete_file (Sample.with_delete true) (JObj [("filename", JStr "a.txt")]) w'
       = (Fail (Error "File not found"), w').
Proof.
  apply (delete_file_removes (Sample.with_delete true) _ "a.txt" "/data/a.txt" "http://x" 5).
  - reflexivity.
  - reflexivity.
  - reflexivity.
  - split; vm_compute; reflexivity.
Defined.

(** ** Replacing where nothing matches *)

Lemma replace_from_absent re template whole : forall s pos,
  Str.includes s re = false ->
  RegExp.replace_from re template whole pos 0 s = s.
Proof.
  induction s as [ | a s IH]; intros pos; [reflexivity | ].
  cbn [Str.includes RegExp.replace_from]. intros H.
  apply orb_false_iff in H as [Hhere Hlater].
  rewrite Hhere. f_equal. apply IH, Hlater.
Qed.

(** X10.  When the pattern occurs nowhere in the file, [replace_text] still
    writes the file: the text is the same and the time of the file
    becomes the time of the call. *)
Theorem replace_text_without_match (e : env) (args search replace : jsval)
        (f p re template content : string) (t : Z) (w : world) :
  JS.get args "search" = Ok search ->
  JS.get args "replace" = Ok replace ->
  JS.get args "filename" = Ok (JStr f) ->
  Tools.ensureSafePath e (JStr f) w = (Ok p, w) ->
  stored e w p content t ->
  RegExp.create search = Ok re ->
  JS.ToString replace = Ok template ->
  Str.includes content re = false ->
  Tools.replace_text e args w
  = (Ok (JStr ("Text replaced in " ++ p)),
     World (<[Fs.abs e p := File content (now w)]> (entries w)) (now w)).
Proof.
  intros Hs Hr Hf Hcheck Hstored Hre Htemplate Habsent.
  eapply replace_text_run; eauto.
  unfold RegExp.replace. rewrite Htemplate, replace_from_absent by exact Habsent.
  reflexivity.
Qed.

Lemma replace_text_without_match_witness :
  Tools.replace_text Sample.deployment
    (JObj [("filename", JStr "a.txt"); ("search", JStr "ftp"); ("replace", JStr "sftp")])
    Sample.disk
  = (Ok (JStr "Text replaced in /data/a.txt"),
     World (<[Fs.abs Sample.deployment "/data/a.txt" := File "http://x" 1000]>
              (entries Sample.disk)) 1000).
Proof.
  apply (replace_text_without_match Sample.deployment _ (JStr "ftp") (JStr "sftp")
           "a.txt" "/data/a.txt" "ftp" "sftp" "http://x" 5 Sample.disk);
    try reflexivity.
  split; vm_compute; reflexivity.
Defined.

(** ** Organizing: selectors and keys *)

Section OrganizeMore.

Variable e : env.

(** X12.  A selector that is neither ["extension"] nor ["date"] is not
    accepted as it is by [search_files]: with at least one file to
    process, [organize_files] throws before anything is moved; with none
    it returns the empty mapping. *)
Theorem organize_unknown_selector (args by_ : jsval) (files : list string) (w : world) :
  JS.get args "by" = Ok by_ ->
  by_ <> JUndefined -> by_ <> JStr "extension" -> by_ <> JStr "date" ->
  Fs.glob_files e (Tools.workingDir e) w = (Ok files, w) ->
  Tools.organize_files e args w
  = match files with
    | [] => (Ok (JObj []), w)
    | _ :: _ => (Fail (Tools.invalid_arg "path" JUndefined), w)
    end.
Proof.
  intros Hb Hdef Hext Hdate Hglob.
  unfold Tools.organize_files, Tools.param_default. run.
  rewrite (get_param _ _ _ _ Hb).
  assert (Hby : match by_ with JUndefined => JStr "extension" | _ => by_ end = by_)
    by (destruct by_; congruence).
  rewrite Hby, Hglob. destruct files as [ | file files]; [reflexivity | ].
  simpl. unfold Tools.organize_one, Tools.groupKey. run.
  rewrite (is_str_false _ _ Hext), (is_str_false _ _ Hdate). reflexivity.
Qed.

Lemma own_replace_other props k v k' :
  k' <> k -> JS.own (JS.replace_property props k v) k' = JS.own props k'.
Proof.
  intros Hne. induction props as [ | [k1 v1] props IH]; simpl; [reflexivity | ].
  destruct (String.eqb_spec k1 k) as [-> | Hk1]; simpl.
  - destruct (String.eqb_spec k k'); [congruence | reflexivity].
  - destruct (String.eqb k1 k'); [reflexivity | exact IH].
Qed.

Lemma own_add_other props k v k' :
  k' <> k -> JS.own (JS.add_property props k v) k' = JS.own props k'.
Proof.
  intros Hne.
  assert (Hk : String.eqb k k' = false) by (apply String.eqb_neq; congruence).
  induction props as [ | [k1 v1] props IH]; simpl; [rewrite Hk; reflexivity | ].
  destruct (JS.array_index k) as [i | ]; [destruct (JS.array_index k1) as [j | ] | ];
    try destruct (i <? j)%N; simpl; rewrite ?Hk;
    try reflexivity; destruct (String.eqb k1 k'); auto.
Qed.

Lemma own_set_other props k v k' :
  k' <> k -> JS.own (JS.set_property props k v) k' = JS.own props k'.
Proof.
  intros Hne. unfold JS.set_property.
  destruct (JS.own props k); [apply own_replace_other | apply own_add_other]; exact Hne.
Qed.

(** A key gets into the groups only if it is not an inherited name. *)
Lemma push_group_plain groups key item w groups' w' :
  plain_keys groups ->
  Tools.push_group groups key item w = (Ok groups', w') ->
  JS.inherited key = false /\ plain_keys groups'.
Proof.
  intros Hplain. unfold Tools.push_group. run.
  assert (Hkeep : forall v, JS.inherited key = false ->
                            plain_keys (JS.set_property groups key v)).
  { intros v Hkey k Hk. destruct (decide (k = key)) as [-> | Hne]; [exact Hkey | ].
    rewrite own_set_other in Hk by exact Hne. apply Hplain, Hk. }
  destruct (JS.own groups key) as [[ | | | | | items | ] | ] eqn:Hown; try discriminate.
  - intros H. injection H as <- <-.
    assert (JS.inherited key = false) by (apply Hplain; rewrite Hown; eauto). auto.
  - destruct (JS.inherited key) eqn:Hkey; [discriminate | ].
    intros H. injection H as <- <-. auto.
Qed.

Lemma organize_one_plain groups file w groups' w' :
  plain_keys groups ->
  Tools.organize_one e (JStr "extension") groups file w = (Ok groups', w') ->
  JS.inherited (extension_key file) = false /\ plain_keys groups'.
Proof.
  intros Hplain. unfold Tools.organize_one, bind.
  assert (Hkey : Tools.groupKey e (JStr "extension") file w
                 = (Ok (Some (extension_key file)), w)) by reflexivity.
  rewrite Hkey.
  set (targetDir := Path.join [Tools.workingDir e; extension_key file]).
  destruct (Fs.existsSync e targetDir w) as [[found | err | ] w0]; try discriminate.
  destruct ((if negb found then Fs.mkdirSync_recursive e targetDir else ret tt) w0)
    as [[[] | err | ] w1]; try discriminate.
  destruct (Fs.renameSync e file (Path.join [targetDir; Path.basename file]) w1)
    as [[[] | err | ] w2]; try discriminate.
  apply push_group_plain, Hplain.
Qed.

Lemma organize_each_plain files : forall groups w groups' w',
  plain_keys groups ->
  Tools.organize_each e (JStr "extension") groups files w = (Ok groups', w') ->
  Forall (fun file => JS.inherited (extension_key file) = false) files.
Proof.
  induction files as [ | file files IH]; intros groups w groups' w' Hplain; simpl.
  - constructor.
  - unfold bind.
    destruct (Tools.organize_one e (JStr "extension") groups file w)
      as [[g1 | err | ] w1] eqn:Hone; try discriminate.
    intros Hrest.
    destruct (organize_one_plain _ _ _ _ _ Hplain Hone) as [Hkey Hplain1].
    constructor; [exact Hkey | exact (IH _ _ _ _ Hplain1 Hrest)].
Qed.

(** X13.  [organize_files] by extension returns only if no file it lists has
    an extension that is the name of a member of [Object.prototype]
    ([constructor], [toString], ...): the groups object inherits that
    member, which has no [push], and the call throws. *)
Theorem organize_reserved_extension (args : jsval) (files : list string)
        (w : world) (result : jsval) (w' : world) :
  JS.get args "by" = Ok JUndefined \/ JS.get args "by" = Ok (JStr "extension") ->
  Fs.glob_files e (Tools.workingDir e) w = (Ok files, w) ->
  Tools.organize_files e args w = (Ok result, w') ->
  Forall (fun file => JS.inherited (extension_key file) = false) files.
Proof.
  intros Hb Hglob. unfold Tools.organize_files, Tools.param_default. run.
  assert (Hby : JS.param "by" args "by" = Ok JUndefined
                \/ JS.param "by" args "by" = Ok (JStr "extension"))
    by (destruct Hb as [Hb | Hb]; [left | right]; apply get_param, Hb).
  assert (Hloop : forall w0,
             (let (r, w1) := Tools.organize_each e (JStr "extension") [] files w in
              match r with
              | Ok groups => (Ok (JObj groups), w1)
              | Fail err => (Fail err, w1)
              | Unsupported => (Unsupported, w1)
              end) = (Ok result, w0) ->
             Forall (fun file => JS.inherited (extension_key file) = false) files).
  { intros w0. destruct (Tools.organize_each e (JStr "extension") [] files w)
      as [[groups | err | ] w1] eqn:Heach; try discriminate.
    intros _. eapply organize_each_plain; [ | exact Heach].
    intros k [v Hv]. discriminate. }
  destruct Hby as [-> | ->]; rewrite Hglob; apply Hloop.
Qed.

End OrganizeMore.

Lemma organize_unknown_selector_witness :
  Tools.organize_files Sample.deployment (JObj [("by", JStr "size")]) Sample.mixed_disk
  = (Fail (Tools.invalid_arg "path" JUndefined), Sample.mixed_disk).
Proof.
  apply (organize_unknown_selector Sample.deployment _ (JStr "size")
           ["/data/A.TXT"; "/data/README"] Sample.mixed_disk);
    try discriminate; vm_compute; reflexivity.
Defined.

Lemma organize_reserved_extension_witness :
  Forall (fun file => JS.inherited (extension_key file) = false)
         ["/data/A.TXT"; "/data/README"].
Proof.
  apply (organize_reserved_extension Sample.deployment (JObj [("by", JStr "extension")])
           ["/data/A.TXT"; "/data/README"] Sample.mixed_disk
           (JObj [("TXT", JArr [JStr "TXT/A.TXT"]);
                  ("no-extension", JArr [JStr "no-extension/README"])])
           (snd (Tools.organize_files Sample.deployment
                   (JObj [("by", JStr "extension")]) Sample.mixed_disk))).
  - right. reflexivity.
  - vm_compute. reflexivity.
  - vm_compute. reflexivity.
Defined.

(** With such a file the call throws after the file was moved. *)
Example reserved_extension_fails :
  fst (Tools.organize_files Sample.deployment (JObj []) More.reserved_disk)
  = Fail (TypeError "groups[groupKey].push is not a function")
  /\ entries (snd (Tools.organize_files Sample.deployment (JObj []) More.reserved_disk))
       !! "/data/constructor/notes.constructor" = Some (File "n" 5)
  /\ entries (snd (Tools.organize_files Sample.deployment (JObj []) More.reserved_disk))
       !! "/data/notes.constructor" = None.
Proof. repeat split; vm_compute; reflexivity. Qed.

(** ** More of the dispatcher and the front-end *)

Section Protocol.

Variable e : env.

(** X16.  A request whose method is neither [tool_call] nor [initialize], or is
    missing or not a string, is answered with the error envelope of code
    -32600 under its [id]; the file system is not touched. *)
Theorem invalid_method_rejected (json method id : jsval) (w : world) :
  JS.get json "method" = Ok method ->
  JS.get json "id" = Ok id ->
  method <> JStr "tool_call" -> method <> JStr "initialize" ->
  Server.handleSingleCall e json w
  = (Ok (error_envelope id (-32600) "Invalid method"), w).
Proof.
  intros Hm Hi Htool Hinit. unfold Server.handleSingleCall. run.
  rewrite Hm, Hi, (is_str_false _ _ Htool), (is_str_false _ _ Hinit). reflexivity.
Qed.

Lemma own_tool_absent key :
  ~ In key (Tools.keys e) -> Tools.own_tool (Tools.exports e) key = None.
Proof.
  unfold Tools.keys. induction (Tools.exports e) as [ | [k tool] l IH]; simpl;
    [reflexivity | ].
  intros Hnot. destruct (String.eqb_spec k key) as [-> | _]; [tauto | ].
  apply IH. tauto.
Qed.

(** X17.  A call of a name that the registry does not have (and that is no
    inherited member) is answered with the error envelope of code
    -32000; no tool runs and the file system is not touched. *)
Theorem unknown_tool_rejected (json id params name args : jsval) (key : string) (w : world) :
  JS.get json "method" = Ok (JStr "tool_call") ->
  JS.get json "id" = Ok id ->
  JS.get json "params" = Ok params ->
  JS.get params "name" = Ok name ->
  JS.get params "arguments" = Ok args ->
  JS.ToString name = Ok key ->
  ~ In key (Tools.keys e) -> JS.inherited key = false ->
  Server.handleSingleCall e json w
  = (Ok (error_envelope id (-32000) "tools[name] is not a function"), w).
Proof.
  intros Hm Hi Hp Hn Ha Hkey Hnot Hplain. unfold Server.handleSingleCall. run.
  rewrite Hm, Hi. simpl. rewrite Hp.
  rewrite (get_destructure _ _ _ _ _ Hn), (get_destructure _ _ _ _ _ Ha).
  unfold Tools.call. run. rewrite Hkey, (own_tool_absent _ Hnot), Hplain. reflexivity.
Qed.

Lemma handleEach_app items : forall more w rs w1,
  answered e w items rs w1 ->
  Server.handleEach e (items ++ more)%list w
  = match Server.handleEach e more w1 with
    | (Ok rest, w2) => (Ok (rs ++ rest)%list, w2)
    | other => other
    end.
Proof.
  intros more w rs w1 H. induction H as [w | w item resp w1 items resps w2 Hitem _ IH].
  - simpl. destruct (Server.handleEach e more w) as [[rest | err | ] w2]; reflexivity.
  - simpl. run. rewrite Hitem, IH.
    destruct (Server.handleEach e more w2) as [[rest | err | ] w3]; reflexivity.
Qed.

(** X18.  One faulting item costs the whole batch: the responses of the items
    before it are dropped, the items after it are not run, and the
    answer is a single envelope with status 500; what the earlier items
    did to the file system stays done. *)
Theorem faulting_item_drops_batch (items rest : list jsval) (bad : jsval)
        (rs : list jsval) (err : exn) (w w1 w2 : world) :
  answered e w items rs w1 ->
  Server.handleSingleCall e bad w1 = (Fail err, w2) ->
  Server.on_end e (Server.JSONText (JArr (items ++ bad :: rest)%list)) w
  = (Ok (Server.Reply 500
           (JObj [("jsonrpc", JStr "2.0");
                  ("error", JObj [("code", JNum (-32000));
                                  ("message", JStr (message err))])])), w2).
Proof.
  intros Hdone Hbad. unfold Server.on_end, Server.collect. run.
  rewrite (handleEach_app _ _ _ _ _ Hdone). simpl. run. rewrite Hbad. reflexivity.
Qed.

(** X19.  The listener of the body always answers: it never throws, its status
    is 200 or 500, and with 500 it sends one envelope of code -32000. *)
Theorem on_end_always_answers (b : Server.body) (w : world) :
  match Server.on_end e b w with
  | (Ok r, _) =>
      Server.status r = 200
      \/ exists msg,
          r = Server.Reply 500 (JObj [("jsonrpc", JStr "2.0");
                                      ("error", JObj [("code", JNum (-32000));
                                                      ("message", JStr msg)])])
  | (Fail _, _) => False
  | (Unsupported, _) => True
  end.
Proof.
  unfold Server.on_end. run. destruct b as [msg | json].
  - right. eauto.
  - destruct (Server.collect e json w) as [[rs | err | ] w1]; [left | right | ]; eauto.
Qed.

(** Off the endpoint, every request is answered with status 404 and the
    envelope of code -32600, with or without a token. *)
Theorem not_found_elsewhere (req : Server.request) :
  Server.http_method req <> "POST" \/ Server.url req <> "/mcp" ->
  Server.server e req
  = Server.Respond (Server.Reply 404 (JObj [("jsonrpc", JStr "2.0");
                                            ("error", Server.error_object (-32600) "Not Found")])).
Proof.
  intros H. unfold Server.server.
  destruct (String.eqb_spec (Server.http_method req) "POST");
    destruct (String.eqb_spec (Server.url req) "/mcp"); simpl; try reflexivity.
  destruct H; congruence.
Qed.

End Protocol.

Lemma invalid_method_rejected_witness :
  Server.handleSingleCall Sample.deployment (JObj [("id", JStr "r1")]) Sample.disk
  = (Ok (error_envelope (JStr "r1") (-32600) "Invalid method"), Sample.disk).
Proof.
  apply (invalid_method_rejected Sample.deployment _ JUndefined (JStr "r1"));
    try reflexivity; discriminate.
Defined.

Lemma unknown_tool_rejected_witness :
  Server.handleSingleCall Sample.deployment
    (Sample.tool_call (JNum 4) "fetch_external_data" (JObj [])) Sample.disk
  = (Ok (error_envelope (JNum 4) (-32000) "tools[name] is not a function"), Sample.disk).
Proof.
  apply (unknown_tool_rejected Sample.deployment _ (JNum 4)
           (JObj [("name", JStr "fetch_external_data"); ("arguments", JObj [])])
           (JStr "fetch_external_data") (JObj []) "fetch_external_data");
    try reflexivity.
  vm_compute. intuition discriminate.
Defined.

Lemma faulting_item_drops_batch_witness :
  Server.on_end Sample.deployment
    (Server.JSONText
       (JArr [Sample.tool_call (JNum 1) "replace_text" (Sample.http_to_https "a.txt");
              Sample.request (JNum 2) "tool_call" []]))
    Sample.disk
  = (Ok (Server.Reply 500
           (JObj [("jsonrpc", JStr "2.0");
                  ("error", Server.error_object (-32000)
                     "Cannot destructure property 'name' of 'json.params' as it is undefined.")])),
     World (<["/data/a.txt" := File "https://x" 1000]> (entries Sample.disk)) 1000).
Proof.
  apply (faulting_item_drops_batch Sample.deployment
           [Sample.tool_call (JNum 1) "replace_text" (Sample.http_to_https "a.txt")] []
           (Sample.request (JNum 2) "tool_call" [])
           [result_envelope (JNum 1) (JStr (JS.quote "Text replaced in /data/a.txt"))]
           (TypeError "Cannot destructure property 'name' of 'json.params' as it is undefined.")
           Sample.disk
           (World (<["/data/a.txt" := File "https://x" 1000]> (entries Sample.disk)) 1000)).
  - econstructor; [ | constructor]. reflexivity.
  - reflexivity.
Defined.

Lemma not_found_elsewhere_witness :
  Server.server Sample.deployment
    (Server.Request "GET" "/mcp" (Some "Bearer Super8Duper8Secret8T0ken"))
  = Server.Respond (Server.Reply 404 (JObj [("jsonrpc", JStr "2.0");
                                            ("error", Server.error_object (-32600) "Not Found")])).
Proof.
  apply (not_found_elsewhere Sample.deployment
           (Server.Request "GET" "/mcp" (Some "Bearer Super8Duper8Secret8T0ken"))).
  left. discriminate.
Defined.

(** X15.  A [tool_call] whose [params] can be destructured never throws out
    of the dispatcher, whatever the name, the arguments and the tool do:
    what is returned is the result envelope or the error envelope of
    code -32000, under the [id] of the request. *)
Theorem tool_call_never_escapes (e : env) (json id params name args : jsval) (w : world) :
  JS.get json "method" = Ok (JStr "tool_call") ->
  JS.get json "id" = Ok id ->
  JS.get json "params" = Ok params ->
  JS.get params "name" = Ok name ->
  JS.get params "arguments" = Ok args ->
  (forall err w', Server.handleSingleCall e json w <> (Fail err, w'))
  /\ (forall resp w',
         Server.handleSingleCall e json w = (Ok resp, w') ->
         (exists text, resp = result_envelope id text)
         \/ (exists err, resp = error_envelope id (-32000) (message err))).
Proof.
  intros Hm Hi Hp Hn Ha.
  pose proof (tool_call_enveloped e json id params name args w Hm Hi Hp Hn Ha) as H.
  destruct (Server.handleSingleCall e json w) as [[resp | err | ] w1].
  - split; [discriminate | ]. intros resp' w' Heq. injection Heq as <- <-. exact H.
  - contradiction.
  - split; discriminate.
Qed.

Lemma tool_call_never_escapes_witness :
  (forall err w',
     Server.handleSingleCall Sample.deployment
       (Sample.tool_call (JNum 7) "replace_text" (JObj [])) Sample.disk <> (Fail err, w'))
  /\ (forall resp w',
         Server.handleSingleCall Sample.deployment
           (Sample.tool_call (JNum 7) "replace_text" (JObj [])) Sample.disk = (Ok resp, w') ->
         (exists text, resp = result_envelope (JNum 7) text)
         \/ (exists err, resp = error_envelope (JNum 7) (-32000) (message err))).
Proof.
  apply (tool_call_never_escapes Sample.deployment
           (Sample.tool_call (JNum 7) "replace_text" (JObj [])) (JNum 7)
           (JObj [("name", JStr "replace_text"); ("arguments", JObj [])])
           (JStr "replace_text") (JObj [])); reflexivity.
Defined.

(** ** The client and the server together *)

Section Relay.

(** The configuration the client reads and the one the server runs with *)
Variables client server : env.

Lemma wire_tool_request id n args :
  args <> JUndefined ->
  Client.wire (Client.tool_request id (JStr n) args)
  = Sample.tool_call (JNum id) n (Client.wire args).
Proof. intros Hargs. destruct args; try congruence; reflexivity. Qed.

(** What the dispatcher makes of a well-formed [tool_call] *)
Lemma handle_tool_call id n args w :
  Server.handleSingleCall server (Sample.tool_call id n args) w
  = match Tools.call server (JStr n) args w with
    | (Ok r, w') =>
        match JS.stringified r with
        | Ok text => (Ok (result_envelope id text), w')
        | Fail err => (Ok (error_envelope id (-32000) (message err)), w')
        | Unsupported => (Unsupported, w')
        end
    | (Fail err, w') => (Ok (error_envelope id (-32000) (message err)), w')
    | (Unsupported, w') => (Unsupported, w')
    end.
Proof.
  unfold Server.handleSingleCall. run. simpl.
  destruct (Tools.call server (JStr n) args w) as [[r | err | ] w']; try reflexivity.
  destruct (JS.stringified r); reflexivity.
Qed.

Lemma post_reaches_listener data :
  Client.authToken client = Server.authToken server ->
  Client.post client server data = Server.on_end server (Server.JSONText (Client.wire data)).
Proof.
  intros Htoken. unfold Client.post, Server.server. rewrite Htoken. simpl.
  rewrite String.eqb_refl. reflexivity.
Qed.

(** X20.  With the same token on both sides, [callMcpTool] returns the text
    of the result when the tool succeeds: the result as
    [JSON.stringify] wrote it. *)
Theorem callMcpTool_returns_text (n : string) (args r : jsval) (text : string) (w w' : world) :
  Client.authToken client = Server.authToken server ->
  args <> JUndefined ->
  Tools.call server (JStr n) (Client.wire args) w = (Ok r, w') ->
  JS.JSON_stringify r = Ok (Some text) ->
  Client.callMcpTool client server (JStr n) (Server.JSONText args) w = (Ok (JStr text), w').
Proof.
  intros Htoken Hargs Hcall Htext. unfold Client.callMcpTool, Fs.clock. run.
  rewrite (post_reaches_listener _ Htoken), (wire_tool_request _ _ _ Hargs).
  unfold Server.on_end, Server.collect. run.
  change (Sample.tool_call (JNum (now w)) n (Client.wire args))
    with (JObj ([("jsonrpc", JStr "2.0"); ("id", JNum (now w)); ("method", JStr "tool_call")]
                  ++ [("params", JObj [("name", JStr n); ("arguments", Client.wire args)])])%list)
    at 1.
  cbv iota beta.
  change (JObj ([("jsonrpc", JStr "2.0"); ("id", JNum (now w)); ("method", JStr "tool_call")]
                  ++ [("params", JObj [("name", JStr n); ("arguments", Client.wire args)])])%list)
    with (Sample.tool_call (JNum (now w)) n (Client.wire args)).
  rewrite handle_tool_call, Hcall. unfold JS.stringified. rewrite Htext. reflexivity.
Qed.

(** X21.  When the tool fails, the server answers with an error envelope and
    status 200, and [callMcpTool], which reads [result.content] of
    whatever arrives, throws a [TypeError] of its own: the message of
    the tool's failure does not reach the caller. *)
Theorem callMcpTool_loses_error (n : string) (args : jsval) (err : exn) (w w' : world) :
  Client.authToken client = Server.authToken server ->
  args <> JUndefined ->
  Tools.call server (JStr n) (Client.wire args) w = (Fail err, w') ->
  Client.callMcpTool client server (JStr n) (Server.JSONText args) w
  = (Fail (TypeError "Cannot read properties of undefined (reading 'content')"), w').
Proof.
  intros Htoken Hargs Hcall. unfold Client.callMcpTool, Fs.clock. run.
  rewrite (post_reaches_listener _ Htoken), (wire_tool_request _ _ _ Hargs).
  unfold Server.on_end, Server.collect. run.
  change (Sample.tool_call (JNum (now w)) n (Client.wire args))
    with (JObj ([("jsonrpc", JStr "2.0"); ("id", JNum (now w)); ("method", JStr "tool_call")]
                  ++ [("params", JObj [("name", JStr n); ("arguments", Client.wire args)])])%list)
    at 1.
  cbv iota beta.
  change (JObj ([("jsonrpc", JStr "2.0"); ("id", JNum (now w)); ("method", JStr "tool_call")]
                  ++ [("params", JObj [("name", JStr n); ("arguments", Client.wire args)])])%list)
    with (Sample.tool_call (JNum (now w)) n (Client.wire args)).
  rewrite handle_tool_call, Hcall. reflexivity.
Qed.

(** X22.  With a token that is not the server's, [callMcpTool] fails with the
    status 401 and no tool runs. *)
Theorem callMcpTool_unauthorized (name args : jsval) (w : world) :
  Client.authToken client <> Server.authToken server ->
  Client.callMcpTool client server name (Server.JSONText args) w
  = (Fail (Client.status_error 401), w).
Proof.
  intros Htoken.
  assert (Hne : String.eqb ("Bearer " ++ Client.authToken client)
                           ("Bearer " ++ Server.authToken server) = false).
  { apply String.eqb_neq. intros Heq. apply Htoken.
    exact (inj (String.append "Bearer ") _ _ Heq). }
  unfold Client.callMcpTool, Client.post, Server.server, Fs.clock. run.
  cbn [Server.http_method Server.url Server.authorization].
  change (String.eqb "POST" "POST" && String.eqb "/mcp" "/mcp") with true. cbv iota.
  rewrite bearer_not_empty, Hne. reflexivity.
Qed.

End Relay.

Lemma callMcpTool_returns_text_witness :
  Client.callMcpTool Sample.deployment Sample.deployment (JStr "search_files")
    (Server.JSONText (JObj [("query", JStr "a")])) Sample.disk
  = (Ok (JStr ("[" ++ JS.quote "a.txt" ++ "]")), Sample.disk).
Proof.
  apply (callMcpTool_returns_text Sample.deployment Sample.deployment "search_files"
           (JObj [("query", JStr "a")]) (JArr [JStr "a.txt"])).
  - reflexivity.
  - discriminate.
  - vm_compute. reflexivity.
  - vm_compute. reflexivity.
Defined.

Lemma callMcpTool_loses_error_witness :
  Client.callMcpTool Sample.deployment Sample.deployment (JStr "delete_file")
    (Server.JSONText (JObj [("filename", JStr "a.txt")])) Sample.disk
  = (Fail (TypeError "Cannot read properties of undefined (reading 'content')"), Sample.disk).
Proof.
  apply (callMcpTool_loses_error Sample.deployment Sample.deployment "delete_file"
           (JObj [("filename", JStr "a.txt")])
           (Error "File deletion is disabled in configuration")).
  - reflexivity.
  - discriminate.
  - reflexivity.
Defined.

Lemma callMcpTool_unauthorized_witness :
  Client.callMcpTool More2.stranger Sample.deployment (JStr "search_files")
    (Server.JSONText (JObj [("query", JStr "a")])) Sample.disk
  = (Fail (Client.status_error 401), Sample.disk).
Proof.
  apply (callMcpTool_unauthorized More2.stranger Sample.deployment). discriminate.
Defined.

(** The client describes [fetch_external_data] to the model, and the
    registry does not have it: calling it ends in the client's own
    [TypeError]. *)
Example undescribed_tool :
  Client.callMcpTool Sample.deployment Sample.deployment (JStr "fetch_external_data")
    (Server.JSONText (JObj [("endpoint", JStr "posts")])) Sample.disk
  = (Fail (TypeError "Cannot read properties of undefined (reading 'content')"), Sample.disk)
  /\ Forall (fun n => In n Client.tool_names) (Tools.keys Sample.deployment).
Proof. split; [reflexivity | repeat constructor; simpl; tauto]. Qed.

(** ** How far the check can be passed *)

Lemma prefix_cons a s b t :
  String.prefix (String a s) (String b t) = true -> a = b /\ String.prefix s t = true.
Proof. simpl. destruct (ascii_dec a b); [auto | discriminate]. Qed.

Lemma prefix_empty s : String.prefix "" s = true.
Proof. destruct s; reflexivity. Qed.

(** A component that starts a text, where the text is a component and
    then nothing or a separator, starts that component. *)
Lemma prefix_last_component c r : forall f0 tail,
  free_of c r -> free_of c f0 ->
  tail = "" \/ (exists x, tail = String c x) ->
  String.prefix r (f0 ++ tail) = true ->
  exists ext, f0 = r ++ ext.
Proof.
  induction r as [ | a r IH]; intros f0 tail Hr Hf Htail Hpre.
  - exists f0. reflexivity.
  - destruct Hr as [Ha Hr]. destruct f0 as [ | b f0].
    + change ("" ++ tail) with tail in Hpre.
      destruct Htail as [-> | [x ->]]; [discriminate | ].
      apply prefix_cons in Hpre as [-> _]. congruence.
    + change (String b f0 ++ tail) with (String b (f0 ++ tail)) in Hpre.
      apply prefix_cons in Hpre as [-> Hpre]. destruct Hf as [_ Hf].
      destruct (IH _ _ Hr Hf Htail Hpre) as [ext ->]. exists ext. reflexivity.
Qed.

(** A component followed by a separator, at the head of such a text, is
    the whole component of the text. *)
Lemma prefix_inner_component c r x : forall f0 tail,
  free_of c r -> free_of c f0 ->
  tail = "" \/ (exists y, tail = String c y) ->
  String.prefix (r ++ String c x) (f0 ++ tail) = true ->
  f0 = r /\ exists y, tail = String c y /\ String.prefix x y = true.
Proof.
  induction r as [ | a r IH]; intros f0 tail Hr Hf Htail Hpre.
  - change ("" ++ String c x) with (String c x) in Hpre. destruct f0 as [ | b f0].
    + change ("" ++ tail) with tail in Hpre.
      destruct Htail as [-> | [y ->]]; [discriminate | ].
      apply prefix_cons in Hpre as [_ Hpre]. eauto.
    + change (String b f0 ++ tail) with (String b (f0 ++ tail)) in Hpre.
      apply prefix_cons in Hpre as [<- _]. destruct Hf as [Hb _]. congruence.
  - change (String a r ++ String c x) with (String a (r ++ String c x)) in Hpre.
    destruct Hr as [Ha Hr]. destruct f0 as [ | b f0].
    + change ("" ++ tail) with tail in Hpre.
      destruct Htail as [-> | [y ->]]; [discriminate | ].
      apply prefix_cons in Hpre as [-> _]. congruence.
    + change (String b f0 ++ tail) with (String b (f0 ++ tail)) in Hpre.
      apply prefix_cons in Hpre as [-> Hpre]. destruct Hf as [_ Hf].
      destruct (IH _ _ Hr Hf Htail Hpre) as (-> & y & Hy & Hxy). eauto.
Qed.

Lemma join_cons (sep part : string) rest :
  Str.join sep (part :: rest)
  = part ++ match rest with [] => "" | _ => sep ++ Str.join sep rest end.
Proof. destruct rest; simpl; [symmetry; apply string_app_empty | reflexivity]. Qed.

(** When the joined components of [R] start the joined components of
    [F], either [F] continues [R], or it parts from [R] at the last
    component of [R], with a component that properly extends it. *)
Lemma joined_prefix R : forall F,
  Forall clean R -> Forall clean F -> R <> [] ->
  String.prefix (Str.join "/" R) (Str.join "/" F) = true ->
  (exists rest, F = (R ++ rest)%list)
  \/ (exists before last ext rest,
         R = (before ++ [last])%list
         /\ F = (before ++ [String.append last ext] ++ rest)%list /\ ext <> "").
Proof.
  induction R as [ | r R IH]; intros F HR HF Hne Hpre; [congruence | ].
  inversion HR as [ | ? ? Hr HR']; subst.
  destruct F as [ | f0 F].
  { destruct Hr as [Hr _]. destruct r; [congruence | ]. destruct R; discriminate. }
  inversion HF as [ | ? ? Hf HF']; subst.
  assert (Htail : (match F with [] => "" | _ => "/" ++ Str.join "/" F end) = ""
                  \/ exists y, (match F with [] => "" | _ => "/" ++ Str.join "/" F end)
                               = String "/" y)
    by (destruct F; [left | right; eexists]; reflexivity).
  rewrite (join_cons "/" f0 F) in Hpre.
  destruct R as [ | r' R].
  - simpl in Hpre.
    destruct (prefix_last_component "/" r f0 _ (proj2 (proj2 (proj2 Hr)))
                (proj2 (proj2 (proj2 Hf))) Htail Hpre) as [ext ->].
    destruct ext as [ | a ext].
    + left. exists F. rewrite string_app_empty. reflexivity.
    + right. exists [], r, (String a ext), F.
      split; [reflexivity | split; [reflexivity | discriminate]].
  - rewrite (join_cons "/" r (r' :: R)) in Hpre.
    change ("/" ++ Str.join "/" (r' :: R)) with (String "/" (Str.join "/" (r' :: R))) in Hpre.
    destruct (prefix_inner_component "/" r _ f0 _ (proj2 (proj2 (proj2 Hr)))
                (proj2 (proj2 (proj2 Hf))) Htail Hpre) as (-> & y & Hy & Hrest).
    destruct F as [ | f1 F]; [discriminate | ].
    injection Hy as <-.
    destruct (IH (f1 :: F) HR' HF' ltac:(discriminate) Hrest)
      as [[rest Hcont] | (before & last & ext & rest & HeqR & HeqF & Hext)].
    + left. exists rest. rewrite Hcont. reflexivity.
    + right. exists (r :: before), last, ext, rest.
      rewrite HeqR, HeqF. split; [reflexivity | split; [reflexivity | exact Hext]].
Qed.

(** X3.  The check can be passed from outside the root only through a sibling
    of the root: a path that is accepted without being within the root
    agrees with the root up to the root's last component and goes on
    with a component that properly extends that one ([/data-secret] for
    the root [/data]).  No other path outside the root is accepted. *)
Theorem ensureSafePath_escapes_only_to_siblings (e : env) (f p : string) (w w' : world) :
  Path.isAbsolute (cwd e) = true ->
  Tools.ensureSafePath e (JStr f) w = (Ok p, w') ->
  Path.within (Path.resolve (cwd e) [Tools.workingDir e]) p = false ->
  exists before last ext rest,
    Path.segments (Path.resolve (cwd e) [Tools.workingDir e]) = (before ++ [last])%list
    /\ Path.segments p = (before ++ [String.append last ext] ++ rest)%list
    /\ ext <> "".
Proof.
  intros Habs Hok Hout.
  apply ensureSafePath_returns in Hok as (f' & Hf & -> & -> & Hstarts).
  injection Hf as <-.
  destruct (resolve_canonical (cwd e) [Tools.workingDir e] Habs) as (R & HR & HeqR).
  destruct (resolve_canonical (cwd e) [Tools.workingDir e; f] Habs) as (F & HF & HeqF).
  rewrite HeqR, HeqF in *.
  rewrite (segments_of_segments _ HR), (segments_of_segments _ HF).
  unfold Path.within in Hout. apply bool_decide_eq_false in Hout.
  rewrite (segments_of_segments _ HR), (segments_of_segments _ HF) in Hout.
  assert (Hnot : forall rest, F <> (R ++ rest)%list).
  { intros rest ->. apply Hout. clear. induction R as [ | r R IH]; simpl; [eauto | ].
    rewrite String.eqb_refl. exact IH. }
  destruct R as [ | r R]; [exfalso; exact (Hnot F eq_refl) | ].
  unfold Str.startsWith, Fs.of_segments in Hstarts.
  change ("/" ++ Str.join "/" (r :: R)) with (String "/" (Str.join "/" (r :: R))) in Hstarts.
  change ("/" ++ Str.join "/" F) with (String "/" (Str.join "/" F)) in Hstarts.
  apply prefix_cons in Hstarts as [_ Hstarts].
  destruct (joined_prefix (r :: R) F HR HF ltac:(discriminate) Hstarts)
    as [[rest Hcont] | Hsibling]; [exfalso; exact (Hnot rest Hcont) | exact Hsibling].
Qed.

Lemma ensureSafePath_escapes_only_to_siblings_witness :
  exists before last ext rest,
    Path.segments (Path.resolve "/srv" [Tools.workingDir Sample.deployment])
    = (before ++ [last])%list
    /\ Path.segments "/data-secret/x" = (before ++ [String.append last ext] ++ rest)%list
    /\ ext <> "".
Proof.
  apply (ensureSafePath_escapes_only_to_siblings Sample.deployment "../data-secret/x"
           "/data-secret/x" Sample.disk Sample.disk); reflexivity.
Defined.

(** ** Files of the same name *)

Section Collision.

Variable e : env.

Lemma push_group_appends groups key item w groups' w' :
  Tools.push_group groups key item w = (Ok groups', w') ->
  JS.own groups' key
  = Some (JArr (match JS.own groups key with Some (JArr l) => l | _ => [] end ++ [item])).
Proof.
  unfold Tools.push_group. run.
  destruct (JS.own groups key) as [[ | | | | | items | ] | ]; try discriminate.
  - intros H. injection H as <- <-. apply own_set_property.
  - destruct (JS.inherited key); [discriminate | ].
    intros H. injection H as <- <-. apply own_set_property.
Qed.

Lemma organize_one_listed groups file w groups' w' :
  Tools.organize_one e (JStr "extension") groups file w = (Ok groups', w') ->
  JS.own groups' (extension_key file)
  = Some (JArr (match JS.own groups (extension_key file) with
                | Some (JArr l) => l
                | _ => []
                end
                ++ [JStr (Path.relative (cwd e) (Tools.workingDir e)
                            (destination e (extension_key file) file))])).
Proof.
  unfold Tools.organize_one, bind.
  assert (Hkey : Tools.groupKey e (JStr "extension") file w
                 = (Ok (Some (extension_key file)), w)) by reflexivity.
  rewrite Hkey. fold (destination e (extension_key file) file).
  set (targetDir := Path.join [Tools.workingDir e; extension_key file]).
  destruct (Fs.existsSync e targetDir w) as [[found | err | ] w0]; try discriminate.
  destruct ((if negb found then Fs.mkdirSync_recursive e targetDir else ret tt) w0)
    as [[[] | err | ] w1]; try discriminate.
  destruct (Fs.renameSync e file (destination e (extension_key file) file) w1)
    as [[[] | err | ] w2]; try discriminate.
  apply push_group_appends.
Qed.

Lemma filed_by_extension file w groups' w' :
  filed e (JStr "extension") file w groups' w' ->
  exists content t,
    entries w !! Fs.abs e file = Some (File content t)
    /\ entries w' !! Fs.abs e (destination e (extension_key file) file)
       = Some (File content t)
    /\ (Fs.abs e file <> Fs.abs e (destination e (extension_key file) file) ->
        entries w' !! Fs.abs e file = None).
Proof.
  intros (key & content & t & Hsrc & [[_ ->] | [Hdate _]] & Hdst & Hgone & _);
    [ | discriminate].
  exists content, t. auto.
Qed.

(** X14.  [organize_files] puts every file directly under its group, by base
    name alone.  When two files of the same name get their turns, the
    second takes the place of the first: the text of the first is gone,
    and the mapping lists the one remaining path twice. *)
Theorem same_name_files_collide (g0 g1 g2 : list (string * jsval)) (f1 f2 : string)
        (w0 w1 w2 : world) :
  Tools.organize_one e (JStr "extension") g0 f1 w0 = (Ok g1, w1) ->
  Tools.organize_one e (JStr "extension") g1 f2 w1 = (Ok g2, w2) ->
  Path.basename f1 = Path.basename f2 ->
  Fs.abs e f2 <> Fs.abs e (destination e (extension_key f1) f1) ->
  exists c1 t1 c2 t2 items,
    entries w1 !! Fs.abs e (destination e (extension_key f1) f1) = Some (File c1 t1)
    /\ entries w1 !! Fs.abs e f2 = Some (File c2 t2)
    /\ entries w2 !! Fs.abs e (destination e (extension_key f1) f1) = Some (File c2 t2)
    /\ entries w2 !! Fs.abs e f2 = None
    /\ JS.own g2 (extension_key f1)
       = Some (JArr (items
                     ++ [JStr (Path.relative (cwd e) (Tools.workingDir e)
                                 (destination e (extension_key f1) f1));
                         JStr (Path.relative (cwd e) (Tools.workingDir e)
                                 (destination e (extension_key f1) f1))])).
Proof.
  intros H1 H2 Hname Hother.
  assert (Hkey : extension_key f2 = extension_key f1)
    by (unfold extension_key, Path.extname; rewrite Hname; reflexivity).
  assert (Hdest : destination e (extension_key f2) f2 = destination e (extension_key f1) f1)
    by (unfold destination; rewrite Hkey, Hname; reflexivity).
  pose proof (organize_one_listed _ _ _ _ _ H1) as Hg1.
  pose proof (organize_one_listed _ _ _ _ _ H2) as Hg2.
  rewrite Hdest, Hkey, Hg1 in Hg2.
  destruct (filed_by_extension _ _ _ _ (organize_one_files _ _ _ _ _ _ _ H1))
    as (c1 & t1 & _ & Hdst1 & _).
  destruct (filed_by_extension _ _ _ _ (organize_one_files _ _ _ _ _ _ _ H2))
    as (c2 & t2 & Hsrc2 & Hdst2 & Hgone2).
  rewrite Hdest in Hdst2, Hgone2.
  exists c1, t1, c2, t2,
    (match JS.own g0 (extension_key f1) with Some (JArr l) => l | _ => [] end).
  split; [exact Hdst1 | ]. split; [exact Hsrc2 | ]. split; [exact Hdst2 | ].
  split; [exact (Hgone2 Hother) | ].
  rewrite Hg2, <- app_assoc. reflexivity.
Qed.

End Collision.

Lemma same_name_files_collide_witness :
  exists c1 t1 c2 t2 items,
    entries (snd (Tools.organize_one Sample.deployment (JStr "extension") []
                    "/data/a/x.txt" More3.twin_disk))
      !! Fs.abs Sample.deployment
           (destination Sample.deployment (extension_key "/data/a/x.txt") "/data/a/x.txt")
    = Some (File c1 t1)
    /\ entries (snd (Tools.organize_one Sample.deployment (JStr "extension") []
                       "/data/a/x.txt" More3.twin_disk))
         !! Fs.abs Sample.deployment "/data/b/x.txt" = Some (File c2 t2)
    /\ entries (snd (Tools.organize_files Sample.deployment (JObj []) More3.twin_disk))
         !! Fs.abs Sample.deployment
              (destination Sample.deployment (extension_key "/data/a/x.txt") "/data/a/x.txt")
       = Some (File c2 t2)
    /\ entries (snd (Tools.organize_files Sample.deployment (JObj []) More3.twin_disk))
         !! Fs.abs Sample.deployment "/data/b/x.txt" = None
    /\ JS.own [("txt", JArr [JStr "txt/x.txt"; JStr "txt/x.txt"])]
              (extension_key "/data/a/x.txt")
       = Some (JArr (items
                     ++ [JStr (Path.relative "/srv" (Tools.workingDir Sample.deployment)
                                 (destination Sample.deployment
                                    (extension_key "/data/a/x.txt") "/data/a/x.txt"));
                         JStr (Path.relative "/srv" (Tools.workingDir Sample.deployment)
                                 (destination Sample.deployment
                                    (extension_key "/data/a/x.txt") "/data/a/x.txt"))])).
Proof.
  apply (same_name_files_collide Sample.deployment []
           [("txt", JArr [JStr "txt/x.txt"])]
           [("txt", JArr [JStr "txt/x.txt"; JStr "txt/x.txt"])]
           "/data/a/x.txt" "/data/b/x.txt" More3.twin_disk
           (snd (Tools.organize_one Sample.deployment (JStr "extension") []
                   "/data/a/x.txt" More3.twin_disk))
           (snd (Tools.organize_files Sample.deployment (JObj []) More3.twin_disk))).
  - vm_compute. reflexivity.
  - vm_compute. reflexivity.
  - reflexivity.
  - vm_compute. discriminate.
Defined.

(** ** The client's key *)

(** X23.  The client stops at once for want of a key exactly when the key is
    not set and the provider is not Ollama, or when the provider's name
    is that of an inherited member.  A key that is set, if only to the
    empty text, lets every provider start. *)
Theorem client_stops_without_key (c : Llm.settings) :
  Llm.stops c = true <->
  (Llm.LLM_API_KEY c = None /\ Llm.API_PROVIDER c <> Some "ollama")
  \/ (exists name, Llm.API_PROVIDER c = Some name /\ JS.inherited name = true).
Proof.
  assert (Hkey : forall k : string,
             String.eqb k "" && negb (String.eqb k "") = true <-> False)
    by (intros k; rewrite andb_negb_r; split; [discriminate | tauto]).
  unfold Llm.stops, Llm.selected_key, Llm.selected.
  destruct c as [[name | ] key model];
    cbn [Llm.API_PROVIDER Llm.LLM_API_KEY Llm.apiKey Llm.deepseek Llm.openai Llm.ollama].
  - destruct (String.eqb_spec name "deepseek") as [-> | Hd];
      [ | destruct (String.eqb_spec name "openai") as [-> | Ho];
          [ | destruct (String.eqb_spec name "ollama") as [-> | Hl];
              [ | destruct (JS.inherited name) eqn:Hin ] ] ];
      cbn [Llm.apiKey Llm.deepseek Llm.openai Llm.ollama Llm.LLM_API_KEY].
    + destruct key as [k | ]; [rewrite Hkey | ]; split; try tauto; try reflexivity.
      * intros [[Hk _] | (n & Hn & Hin)]; [discriminate | ].
        injection Hn as <-. discriminate.
      * intros _. left. split; [reflexivity | discriminate].
    + destruct key as [k | ]; [rewrite Hkey | ]; split; try tauto; try reflexivity.
      * intros [[Hk _] | (n & Hn & Hin)]; [discriminate | ].
        injection Hn as <-. discriminate.
      * intros _. left. split; [reflexivity | discriminate].
    + rewrite Hkey. split; [tauto | ].
      intros [[_ Hne] | (n & Hn & Hin)]; [congruence | ].
      injection Hn as <-. discriminate.
    + split; [ | reflexivity]. intros _. right. eauto.
    + destruct key as [k | ]; [rewrite Hkey | ]; split; try tauto; try reflexivity.
      * intros [[Hk _] | (n & Hn & Hin')]; [discriminate | ].
        injection Hn as <-. congruence.
      * intros _. left. split; [reflexivity | congruence].
  - change (String.eqb "undefined" "deepseek") with false.
    change (String.eqb "undefined" "openai") with false.
    change (String.eqb "undefined" "ollama") with false.
    change (JS.inherited "undefined") with false. cbv iota.
    cbn [Llm.apiKey Llm.deepseek Llm.LLM_API_KEY].
    destruct key as [k | ]; [rewrite Hkey | ]; split; try tauto; try reflexivity.
    + intros [[Hk _] | (n & Hn & _)]; discriminate.
    + intros _. left. split; [reflexivity | discriminate].
Qed.
